(** * Mastodon.py: request engine, version gate, pagination and streaming

    A shallow embedding of [src/mastodon/Mastodon.py] and proofs about it.

    Conventions of the embedding.
    - Python [int] is [Z]; Python [float] (the clock, the sleeps, the pace
      factor) is idealised as an exact rational [Q].
    - Python [str] is [string], the bytes of the UTF-8 encoding of the
      text; [dict] with string keys is [gmap string _] (dict equality in
      Python does not look at the insertion order either).
    - A call that can raise returns a [result]: [Ok v] or [Raise e].
    - Library functions the module calls but does not define
      ([dateutil.parser.parse], [requests.utils.parse_header_links]) are
      parameters of the section that uses them. *)

From Stdlib Require Import ZArith QArith Ascii String List Lia.
From stdpp Require Import gmap strings list fin_maps.

Set Warnings "-register-all".
Local Open Scope Z_scope.
Local Open Scope string_scope.

(** ** Python values *)

(** A naive or timezone-aware [datetime.datetime]: the wall-clock reading in
    seconds since 1970-01-01T00:00:00 and the UTC offset when there is one. *)
Record datetime := Datetime { wall : Q; utcoffset : option Q }.

Inductive pyval :=
  | VNone
  | VBool (b : bool)
  | VInt (z : Z)
  | VFloat (q : Q)
  | VStr (s : string)
  | VDate (d : datetime)
  | VList (l : list pyval)
  | VDict (d : gmap string pyval)
  (* an [AttribAccessDict]: its dict entries and its instance attributes *)
  | VAttribAccessDict (d : gmap string pyval) (attrs : gmap string pyval).

(** ** Exceptions *)

Inductive exn_class :=
  | Exception | LookupError | ArithmeticError | OSError
  | ValueError | KeyError | IndexError | TypeError | AttributeError
  | ZeroDivisionError
  | MastodonError | MastodonVersionError | MastodonIllegalArgumentError
  | MastodonIOError | MastodonFileNotFoundError | MastodonNetworkError
  | MastodonAPIError | MastodonNotFoundError | MastodonUnauthorizedError
  | MastodonRatelimitError | MastodonMalformedEventError
  (* a class defined by the caller, with its base class *)
  | UserDefined (name : string) (base : exn_class).

Record exn := Exn { exn_cls : exn_class; exn_args : list pyval }.

(** Direct base classes: the [class X(Base, ...)] lines at the end of the
    module for its own classes, Python's hierarchy for the built-in ones. *)
Definition bases (c : exn_class) : list exn_class :=
  match c with
  | Exception => []
  | LookupError | ArithmeticError | OSError | ValueError | TypeError
  | AttributeError => [Exception]
  | KeyError | IndexError => [LookupError]
  | ZeroDivisionError => [ArithmeticError]
  | MastodonError => [Exception]
  | MastodonVersionError => [MastodonError]
  | MastodonIllegalArgumentError => [ValueError; MastodonError]
  | MastodonIOError => [OSError; MastodonError]
  | MastodonFileNotFoundError | MastodonNetworkError => [MastodonIOError]
  | MastodonAPIError => [MastodonError]
  | MastodonNotFoundError | MastodonUnauthorizedError => [MastodonAPIError]
  | MastodonRatelimitError | MastodonMalformedEventError => [MastodonError]
  | UserDefined _ b => [b]
  end.

Fixpoint class_eqb (c d : exn_class) : bool :=
  match c, d with
  | Exception, Exception | LookupError, LookupError
  | ArithmeticError, ArithmeticError | OSError, OSError
  | ValueError, ValueError | KeyError, KeyError | IndexError, IndexError
  | TypeError, TypeError | AttributeError, AttributeError
  | ZeroDivisionError, ZeroDivisionError
  | MastodonError, MastodonError
  | MastodonVersionError, MastodonVersionError
  | MastodonIllegalArgumentError, MastodonIllegalArgumentError
  | MastodonIOError, MastodonIOError
  | MastodonFileNotFoundError, MastodonFileNotFoundError
  | MastodonNetworkError, MastodonNetworkError
  | MastodonAPIError, MastodonAPIError
  | MastodonNotFoundError, MastodonNotFoundError
  | MastodonUnauthorizedError, MastodonUnauthorizedError
  | MastodonRatelimitError, MastodonRatelimitError
  | MastodonMalformedEventError, MastodonMalformedEventError => true
  | UserDefined n b, UserDefined n' b' => String.eqb n n' && class_eqb b b'
  | _, _ => false
  end.

(** [issubclass c d], by walking the bases; the hierarchy above has depth at
    most four below a caller-defined class. *)
Fixpoint issubclass_upto (depth : nat) (c d : exn_class) : bool :=
  class_eqb c d ||
  match depth with
  | O => false
  | S n => existsb (fun b => issubclass_upto n b d) (bases c)
  end.

Fixpoint class_depth (c : exn_class) : nat :=
  match c with
  | UserDefined _ b => S (class_depth b)
  | _ => 4%nat
  end.

Definition issubclass (c d : exn_class) : bool :=
  issubclass_upto (class_depth c) c d.

(** ** Results of calls that may raise *)

Inductive result (A : Type) :=
  | Ok (a : A)
  | Raise (e : exn).
Arguments Ok {A} a.
Arguments Raise {A} e.

(** [result] is a monad; [x ← r; k] stops at the first [Raise]. *)
#[global] Instance result_bind : MBind result := fun A B k r =>
  match r with
  | Ok a => k a
  | Raise e => Raise e
  end.

#[global] Instance result_ret : MRet result := fun A a => Ok a.

Definition raise {A} (c : exn_class) (msg : string) : result A :=
  Raise (Exn c [VStr msg]).

(** [try: r except C: h] *)
Definition try_except {A} (r : result A) (c : exn_class)
    (h : exn -> result A) : result A :=
  match r with
  | Ok a => Ok a
  | Raise e => if issubclass (exn_cls e) c then h e else Raise e
  end.

(** ** The pieces of [str], [re] and [int] the module uses *)

Definition is_digit (a : ascii) : bool :=
  let n := N_of_ascii a in (48 <=? n)%N && (n <=? 57)%N.

Definition digit_value (a : ascii) : Z := Z.of_N (N_of_ascii a) - 48.

(** [s.split(sep)] for a separator of one character. *)
Fixpoint split (sep : ascii) (s : string) : list string :=
  match s with
  | EmptyString => [EmptyString]
  | String a rest =>
      if Ascii.eqb a sep then EmptyString :: split sep rest
      else match split sep rest with
           | [] => [String a EmptyString]
           | hd :: tl => String a hd :: tl
           end
  end.

(** [re.match] of the pattern of [parse_version_string], a group of zero or
    more of [0-9], then group 0: the longest prefix of ASCII digits. The
    pattern matches every string, the empty prefix included. *)
Fixpoint leading_digits (s : string) : string :=
  match s with
  | String a rest => if is_digit a then String a (leading_digits rest) else EmptyString
  | EmptyString => EmptyString
  end.

Fixpoint digits_value (acc : Z) (s : string) : Z :=
  match s with
  | EmptyString => acc
  | String a rest => digits_value (10 * acc + digit_value a) rest
  end.

(** The body of a decimal literal as [int()] takes it: digits, single
    underscores allowed between two digits. Returns the digits alone. *)
Fixpoint int_body (after_digit : bool) (s : string) : option string :=
  match s with
  | EmptyString => if after_digit then Some EmptyString else None
  | String a rest =>
      if is_digit a then
        match int_body true rest with
        | Some ds => Some (String a ds)
        | None => None
        end
      else if Ascii.eqb a "_" && after_digit then
        match rest with
        | String b _ => if is_digit b then int_body false rest else None
        | EmptyString => None
        end
      else None
  end.

(** *** Text outside ASCII

    A [str] is held as the bytes of its UTF-8 encoding, so a character
    outside ASCII takes two to four elements of the [string]. *)

Definition is_continuation (a : ascii) : bool :=
  let n := N_of_ascii a in (128 <=? n)%N && (n <? 192)%N.

(** The code points of a text, [None] for bytes that encode no text. *)
Fixpoint utf8_decode (s : string) : option (list N) :=
  match s with
  | EmptyString => Some []
  | String a rest =>
      let n := N_of_ascii a in
      if (n <? 128)%N then cons n <$> utf8_decode rest
      else if (n <? 192)%N then None
      else if (n <? 224)%N then
        match rest with
        | String b rest =>
            let cp := ((n - 192) * 64 + (N_of_ascii b - 128))%N in
            if is_continuation b && (128 <=? cp)%N
            then cons cp <$> utf8_decode rest else None
        | _ => None
        end
      else if (n <? 240)%N then
        match rest with
        | String b (String c rest) =>
            let cp := ((n - 224) * 4096 + (N_of_ascii b - 128) * 64
                       + (N_of_ascii c - 128))%N in
            if is_continuation b && is_continuation c && (2048 <=? cp)%N
               && negb ((55296 <=? cp)%N && (cp <? 57344)%N)
            then cons cp <$> utf8_decode rest else None
        | _ => None
        end
      else if (n <? 248)%N then
        match rest with
        | String b (String c (String d rest)) =>
            let cp := ((n - 240) * 262144 + (N_of_ascii b - 128) * 4096
                       + (N_of_ascii c - 128) * 64 + (N_of_ascii d - 128))%N in
            if is_continuation b && is_continuation c && is_continuation d
               && (65536 <=? cp)%N && (cp <? 1114112)%N
            then cons cp <$> utf8_decode rest else None
        | _ => None
        end
      else None
  end.

(** [ch.isspace()] for a code point: the whitespace of the Unicode
    character database, which counts the four separators U+001C to U+001F
    in. *)
Definition unicode_isspace (cp : N) : bool :=
  ((9 <=? cp)%N && (cp <=? 13)%N) || ((28 <=? cp)%N && (cp <=? 32)%N)
  || bool_decide (cp ∈ [133; 160; 5760; 8232; 8233; 8239; 8287; 12288]%N)
  || ((8192 <=? cp)%N && (cp <=? 8202)%N).

(** The code points of the digit zero of every script of the database
    (version 14.0; an interpreter with an older database knows fewer
    scripts); the digits one to nine of a script follow its zero. *)
Definition unicode_zeros : list N :=
  [48; 1632; 1776; 1984; 2406; 2534; 2662; 2790; 2918; 3046; 3174; 3302;
   3430; 3558; 3664; 3792; 3872; 4160; 4240; 6112; 6160; 6470; 6608; 6784;
   6800; 6992; 7088; 7232; 7248; 42528; 43216; 43264; 43472; 43504; 43600;
   44016; 65296; 66720; 68912; 69734; 69872; 69942; 70096; 70384; 70736;
   70864; 71248; 71360; 71472; 71904; 72016; 72784; 73040; 73120; 92768;
   92864; 93008; 120782; 120792; 120802; 120812; 120822; 123200; 123632;
   125264; 130032]%N.

(** The value of a code point as a decimal digit, if it is one. *)
Definition unicode_decimal (cp : N) : option N :=
  match List.find (fun z => (z <=? cp)%N && (cp <? z + 10)%N) unicode_zeros with
  | Some z => Some (cp - z)%N
  | None => None
  end.

(** *** [str.rstrip()]

    The whitespace characters at the end are removed. The text is walked
    from its last byte; a whitespace character takes one to three bytes. *)
Definition is_space_bytes (bytes : list ascii) : bool :=
  match utf8_decode (string_of_list_ascii bytes) with
  | Some [cp] => unicode_isspace cp
  | _ => false
  end.

Fixpoint rstrip_reversed (bytes : list ascii) : list ascii :=
  match bytes with
  | [] => []
  | a :: rest1 =>
      if is_space_bytes [a] then rstrip_reversed rest1
      else
        match rest1 with
        | [] => bytes
        | b :: rest2 =>
            if is_space_bytes [b; a] then rstrip_reversed rest2
            else
              match rest2 with
              | [] => bytes
              | c :: rest3 =>
                  if is_space_bytes [c; b; a] then rstrip_reversed rest3
                  else bytes
              end
        end
  end.

Definition rstrip (s : string) : string :=
  string_of_list_ascii
    (List.rev (rstrip_reversed (List.rev (list_ascii_of_string s)))).

(** *** [int()]

    The whitespace of the C locale, which is what [int()] skips around an
    ASCII literal: the separators U+001C to U+001F are not part of it. *)
Definition is_c_space (a : ascii) : bool :=
  let n := N_of_ascii a in ((9 <=? n)%N && (n <=? 13)%N) || (n =? 32)%N.

Fixpoint lstrip_c (s : string) : string :=
  match s with
  | String a rest => if is_c_space a then lstrip_c rest else s
  | EmptyString => EmptyString
  end.

Fixpoint rstrip_c (s : string) : string :=
  match s with
  | EmptyString => EmptyString
  | String a rest =>
      match rstrip_c rest with
      | EmptyString => if is_c_space a then EmptyString else String a EmptyString
      | r => String a r
      end
  end.

Fixpoint is_ascii (s : string) : bool :=
  match s with
  | EmptyString => true
  | String a rest => (N_of_ascii a <? 128)%N && is_ascii rest
  end.

(** What [int()] does to a text that is not ASCII before it reads it:
    a character below U+007F is kept, whitespace becomes a blank, a decimal
    digit of any script its ASCII digit, and the text is cut at the first
    other character, with a question mark in its place. *)
Fixpoint decimal_and_space_to_ascii (cps : list N) : string :=
  match cps with
  | [] => EmptyString
  | ch :: rest =>
      if (ch <? 127)%N then String (ascii_of_N ch) (decimal_and_space_to_ascii rest)
      else if unicode_isspace ch then String " " (decimal_and_space_to_ascii rest)
      else match unicode_decimal ch with
           | Some d => String (ascii_of_N (48 + d)) (decimal_and_space_to_ascii rest)
           | None => "?"
           end
  end.

(** [int(s)] for a [str] (base 10): an ASCII text is read as it is, another
    one after the conversion above; then surrounding whitespace, an
    optional sign and the literal; anything else is a [ValueError], whose
    message is given without the quoted argument. The number of digits is
    not limited (the limit of the interpreters from 3.11 on is a setting). *)
Definition py_int (s : string) : result Z :=
  let ascii_text :=
    if is_ascii s then s
    else match utf8_decode s with
         | Some cps => decimal_and_space_to_ascii cps
         | None => "?"
         end in
  let t := rstrip_c (lstrip_c ascii_text) in
  let '(neg, body) :=
    match t with
    | String "-" rest => (true, rest)
    | String "+" rest => (false, rest)
    | _ => (false, t)
    end in
  match int_body false body with
  | Some ds => Ok (if neg : bool then - digits_value 0 ds else digits_value 0 ds)
  | None => raise ValueError ("invalid literal for int() with base 10: " +:+ s)
  end.

(** [lst[i]] for [i >= 0]. *)
Definition list_index {A} (l : list A) (i : nat) : result A :=
  match l !! i with
  | Some a => Ok a
  | None => raise IndexError "list index out of range"
  end.

(** ** Version check functions *)

(** [parse_version_string]: the three list elements are evaluated in order. *)
Definition parse_version_string (version_string : string) : result (Z * Z * Z) :=
  let string_parts := split "." version_string in
  p0 ← list_index string_parts 0;
  major ← py_int (leading_digits p0);
  p1 ← list_index string_parts 1;
  minor ← py_int (leading_digits p1);
  p2 ← list_index string_parts 2;
  patch ← py_int (leading_digits p2);
  Ok (major, minor, patch).

(** The fields of a [Mastodon] instance. *)
Record Mastodon := {
  api_base_url : string;
  client_id : string;
  client_secret : option string;
  access_token : option string;
  ratelimit_method : string;
  ratelimit_limit : Z;
  ratelimit_reset : Q;
  ratelimit_remaining : Z;
  ratelimit_lastcall : Q;
  ratelimit_pacefactor : Q;
  mastodon_major : Z;
  mastodon_minor : Z;
  mastodon_patch : Z;
  version_check_mode : string;
}.

(** The check [wrapper] makes before it calls the decorated function. *)
Definition version_check (created_ver last_changed_ver : string)
    (self : Mastodon) : result unit :=
  if negb (String.eqb (version_check_mode self) "none") then
    let version :=
      if String.eqb (version_check_mode self) "created" then created_ver
      else last_changed_ver in
    '(major, minor, patch) ← parse_version_string version;
    if (major >? mastodon_major self)%Z then
      raise MastodonVersionError ("Version check failed (Need version " +:+ version +:+ ")")
    else if (major =? mastodon_major self)%Z && (minor >? mastodon_minor self)%Z then
      raise MastodonVersionError ("Version check failed (Need version " +:+ version +:+ ")")
    else if (major =? mastodon_major self)%Z && (minor =? mastodon_minor self)%Z
            && (patch >? mastodon_patch self)%Z then
      raise MastodonVersionError ("Version check failed (Need version " +:+ version +:+ ")")
    else Ok tt
  else Ok tt.

(** Lexicographic order on (major, minor, patch). *)
Definition version_le (v w : Z * Z * Z) : Prop :=
  let '(a, b, c) := v in
  let '(x, y, z) := w in
  a < x \/ (a = x /\ (b < y \/ (b = y /\ c <= z))).

(** ** Strings: the further pieces used by the request engine *)

(** [s.rstrip(c)] for a set of one character. *)
Fixpoint rstrip_char (c : ascii) (s : string) : string :=
  match s with
  | EmptyString => EmptyString
  | String a rest =>
      match rstrip_char c rest with
      | EmptyString => if Ascii.eqb a c then EmptyString else String a EmptyString
      | r => String a r
      end
  end.

(** [s.startswith(p)] *)
Definition startswith (p s : string) : bool := String.prefix p s.

Fixpoint drop_chars (n : nat) (s : string) : string :=
  match n, s with
  | O, _ => s
  | S m, String _ rest => drop_chars m rest
  | S _, EmptyString => EmptyString
  end.

(** [s.replace(old, new)] for a non-empty [old]: occurrences are replaced
    from the left and do not overlap. [fuel] counts the characters left. *)
Fixpoint replace_upto (fuel : nat) (old new s : string) : string :=
  match fuel with
  | O => s
  | S n =>
      match s with
      | EmptyString => EmptyString
      | String a rest =>
          if startswith old s
          then new +:+ replace_upto (n - (String.length old - 1)) old new
                         (drop_chars (String.length old) s)
          else String a (replace_upto n old new rest)
      end
  end.

Definition replace (old new s : string) : string :=
  replace_upto (String.length s) old new s.

(** [sub in s] for strings. *)
Fixpoint contains_substring (sub s : string) : bool :=
  startswith sub s ||
  match s with
  | EmptyString => false
  | String _ rest => contains_substring sub rest
  end.

(** [re.search] of [key=] followed by a group of zero or more of [0-9]: at
    the first occurrence of [key=], group 1 is the run of digits that
    follows (it may be empty); no occurrence, no match. *)
Fixpoint search_id (key url : string) : option string :=
  if startswith (key +:+ "=") url
  then Some (leading_digits (drop_chars (String.length key + 1) url))
  else match url with
       | EmptyString => None
       | String _ rest => search_id key rest
       end.

(** [s[-1]] and [s[:-1]] *)
Fixpoint last_char (s : string) : option ascii :=
  match s with
  | EmptyString => None
  | String a EmptyString => Some a
  | String _ rest => last_char rest
  end.

Fixpoint drop_last (s : string) : string :=
  match s with
  | EmptyString => EmptyString
  | String a EmptyString => EmptyString
  | String a rest => String a (drop_last rest)
  end.

Definition lower_char (a : ascii) : ascii :=
  let n := N_of_ascii a in
  if (65 <=? n)%N && (n <=? 90)%N then ascii_of_N (n + 32) else a.

Fixpoint lower (s : string) : string :=
  match s with
  | EmptyString => EmptyString
  | String a rest => String (lower_char a) (lower rest)
  end.

Fixpoint string_forallb (p : ascii -> bool) (s : string) : bool :=
  match s with
  | EmptyString => true
  | String a rest => p a && string_forallb p rest
  end.

Fixpoint has_char (c : ascii) (s : string) : bool :=
  match s with
  | EmptyString => false
  | String a rest => Ascii.eqb a c || has_char c rest
  end.

(** The prefix of [s] before the first of the characters of [stops]. *)
Fixpoint take_until (stops s : string) : string :=
  match s with
  | EmptyString => EmptyString
  | String a rest =>
      if has_char a stops then EmptyString else String a (take_until stops rest)
  end.

(** ** [urllib.parse.urlparse]: scheme and netloc

    The splitting rules of the Python the module is written for (a
    parameter named [async] rules out 3.7 and later). *)

Definition is_scheme_char (a : ascii) : bool :=
  let n := N_of_ascii a in
  ((97 <=? n)%N && (n <=? 122)%N) || ((65 <=? n)%N && (n <=? 90)%N)
  || is_digit a || has_char a "+-.".

Record ParseResult := { scheme : string; netloc : string }.

Definition urlparse_str (url : string) : result ParseResult :=
  let '(scheme, url) :=
    match String.index 0 ":" url with
    | Some (S _ as i) =>
        let before := String.substring 0 i url in
        let rest := drop_chars (S i) url in
        if String.eqb before "http" then ("http", rest)
        else if string_forallb is_scheme_char before then
          if String.eqb rest "" || negb (string_forallb is_digit rest)
          then (lower before, rest)
          else ("", url)
        else ("", url)
    | _ => ("", url)
    end in
  if startswith "//" url then
    let netloc := take_until "/?#" (drop_chars 2 url) in
    if (has_char "[" netloc && negb (has_char "]" netloc))
       || (has_char "]" netloc && negb (has_char "[" netloc))
    then raise ValueError "Invalid IPv6 URL"
    else Ok {| scheme := scheme; netloc := netloc |}
  else Ok {| scheme := scheme; netloc := "" |}.

(** ** Python operators on values *)

(** [v[key]] for a string [key] *)
Definition getitem (v : pyval) (key : string) : result pyval :=
  match v with
  | VDict d | VAttribAccessDict d _ =>
      match d !! key with
      | Some x => Ok x
      | None => raise KeyError key
      end
  | VList _ => raise TypeError "list indices must be integers or slices, not str"
  | VStr _ => raise TypeError "string indices must be integers"
  | _ => raise TypeError "object is not subscriptable"
  end.

(** [key in v] for a string [key] *)
Definition contains (key : string) (v : pyval) : result bool :=
  match v with
  | VDict d | VAttribAccessDict d _ => Ok (bool_decide (is_Some (d !! key)))
  | VList l =>
      Ok (existsb (fun x => match x with VStr s => String.eqb s key | _ => false end) l)
  | VStr s => Ok (contains_substring key s)
  | _ => raise TypeError "argument is not iterable"
  end.

(** [v[key] = x] for a string [key] *)
Definition setitem (v : pyval) (key : string) (x : pyval) : result pyval :=
  match v with
  | VDict d => Ok (VDict (<[key := x]> d))
  | VAttribAccessDict d attrs => Ok (VAttribAccessDict (<[key := x]> d) attrs)
  | VList _ => raise TypeError "list indices must be integers or slices, not str"
  | _ => raise TypeError "object does not support item assignment"
  end.

(** Truth value of an object, as [if not error_msg] tests it. *)
Definition truthy (v : pyval) : bool :=
  match v with
  | VNone => false
  | VBool b => b
  | VInt z => negb (z =? 0)%Z
  | VFloat q => negb (Qeq_bool q 0)
  | VStr s => negb (String.eqb s "")
  | VDate _ => true
  | VList l => negb (Nat.eqb (length l) 0)
  | VDict d | VAttribAccessDict d _ => negb (bool_decide (d = ∅))
  end.

(** [v != s] for a string [s] *)
Definition differs_from (v : pyval) (s : string) : bool :=
  match v with
  | VStr t => negb (String.eqb t s)
  | _ => true
  end.

(** [urlparse(v)]: an object that is not text is decoded as bytes, which
    an empty one survives (with empty parts) and another one does not. *)
Definition urlparse (v : pyval) : result ParseResult :=
  match v with
  | VStr s => urlparse_str s
  | _ =>
      if truthy v then raise AttributeError "object has no attribute 'decode'"
      else Ok {| scheme := ""; netloc := "" |}
  end.

(** ** Dict helper class *)

(** [AttribAccessDict.__getattr__] *)
Definition getattr (d attrs : gmap string pyval) (attr : string) : result pyval :=
  if bool_decide (is_Some (d !! attr)) then getitem (VAttribAccessDict d attrs) attr
  else raise AttributeError ("Attribute not found: " +:+ attr).




(** ** JSON decoding *)

(** A JSON text as the decoder reads it: the members of an object in the
    order of the text, duplicates included. *)
Inductive json :=
  | JNull
  | JBool (b : bool)
  | JInt (z : Z)
  | JReal (q : Q)
  | JString (s : string)
  | JArray (items : list json)
  | JObject (members : list (string * json)).

(** [json.loads(text, object_hook=hook)]: values are decoded in the order
    of the text; every object, once its members are decoded into a dict (a
    repeated name keeps the last value), is replaced by [hook] of that
    dict. *)
Fixpoint loads (hook : gmap string pyval -> result pyval) (j : json)
    : result pyval :=
  match j with
  | JNull => Ok VNone
  | JBool b => Ok (VBool b)
  | JInt z => Ok (VInt z)
  | JReal q => Ok (VFloat q)
  | JString s => Ok (VStr s)
  | JArray items =>
      l ← (fix go (items : list json) : result (list pyval) :=
             match items with
             | [] => Ok []
             | x :: rest => v ← loads hook x; vs ← go rest; Ok (v :: vs)
             end) items;
      Ok (VList l)
  | JObject members =>
      d ← (fix go (members : list (string * json)) (acc : gmap string pyval)
             : result (gmap string pyval) :=
             match members with
             | [] => Ok acc
             | (k, x) :: rest => v ← loads hook x; go rest (<[k := v]> acc)
             end) members ∅;
      hook d
  end.

(** [__json_allow_dict_attrs] *)
Definition json_allow_dict_attrs (json_object : pyval) : pyval :=
  match json_object with
  | VDict d | VAttribAccessDict d _ => VAttribAccessDict d ∅
  | _ => json_object
  end.

(** [datetime.datetime.fromtimestamp(v, pytz.utc)]: defined for the years
    1 to 9999. *)
Definition fromtimestamp_utc (v : Z) : option datetime :=
  if (-62135596800 <=? v)%Z && (v <=? 253402300799)%Z
  then Some (Datetime (inject_Z v) (Some 0%Q))
  else None.

Definition known_date_fields : list string := ["created_at"; "week"].

Definition json_strnum_keys : list string :=
  ["id"; "week"; "in_reply_to_id"; "in_reply_to_account_id"; "logins";
   "registrations"; "statuses"].

(** [__json_strnum_to_bignum]: one turn of the loop, then the loop. *)
Definition strnum_to_bignum_key (json_object : gmap string pyval) (key : string)
    : gmap string pyval :=
  match json_object !! key with
  | Some (VStr s) =>
      match py_int s with
      | Ok n => <[key := VInt n]> json_object
      | Raise _ => json_object
      end
  | _ => json_object
  end.

Definition json_strnum_to_bignum (json_object : gmap string pyval)
    : gmap string pyval :=
  foldl strnum_to_bignum_key json_object json_strnum_keys.

(** [a < b] and [min(a, b)] on the clock's numbers. *)
Definition Qltb (a b : Q) : bool :=
  match (a ?= b)%Q with Lt => true | _ => false end.

Definition py_min (a b : Q) : Q := if Qltb b a then b else a.

(** [__datetime_to_epoch]: UTC is assumed when the time zone is not given. *)
Definition datetime_to_epoch (date_time : datetime) : Q :=
  match utcoffset date_time with
  | None => wall date_time
  | Some off => (wall date_time - off)%Q
  end.

(** ** The world a client talks to *)

Record response := {
  status_code : Z;
  reason : string;
  headers : gmap string string;
  (* the body as a JSON text, [None] when it is not one *)
  body : option json;
}.

(** [response.ok]: no 4xx or 5xx status. *)
Definition ok (r : response) : bool :=
  negb ((400 <=? status_code r)%Z && (status_code r <? 600)%Z).

Inductive transport :=
  | Failed (why : string)      (* [requests.request] raised *)
  | Answered (r : response).

(** One scripted exchange: how long it took and how it ended. *)
Record exchange := { took : Q; outcome : transport }.

Inductive event :=
  | Sleep (seconds : Q)
  | Request (method url : string) (hdrs : option (gmap string string))
            (params files : gmap string pyval).

(** The client object together with the outside: the clock, what the
    server will answer to the requests to come (after the last scripted
    exchange the network is down), and what has been done so far. *)
Record state := {
  self : Mastodon;
  now : Q;
  server : list exchange;
  log : list event;
}.

Definition M (A : Type) : Type := state -> result A * state.

#[global] Instance M_ret : MRet M := fun A a st => (Ok a, st).

#[global] Instance M_bind : MBind M := fun A B k m st =>
  match m st with
  | (Ok a, st') => k a st'
  | (Raise e, st') => (Raise e, st')
  end.

Definition lift {A} (r : result A) : M A := fun st => (r, st).

Definition throw {A} (c : exn_class) (msg : string) : M A :=
  lift (raise c msg).

(** [try: m except C: h]; what [m] did before it raised stays done. *)
Definition try_catch {A} (m : M A) (c : exn_class) (h : exn -> M A) : M A :=
  fun st =>
    match m st with
    | (Ok a, st') => (Ok a, st')
    | (Raise e, st') =>
        if issubclass (exn_cls e) c then h e st' else (Raise e, st')
    end.

Definition get_self : M Mastodon := fun st => (Ok (self st), st).

Definition set_self (c : Mastodon) : M unit := fun st =>
  (Ok tt, {| self := c; now := now st; server := server st; log := log st |}).

(** [time.time()] *)
Definition time : M Q := fun st => (Ok (now st), st).

(** [time.sleep(seconds)] *)
Definition sleep (seconds : Q) : M unit := fun st =>
  if Qltb seconds 0 then
    (raise ValueError "sleep length must be non-negative", st)
  else
    (Ok tt, {| self := self st; now := (now st + seconds)%Q;
               server := server st; log := log st ++ [Sleep seconds] |}).

(** [requests.request(method, url, ...)]: the request is recorded, then
    the next scripted exchange, if there is one, decides how it ends. *)
Definition http_request (method url : string) (hdrs : option (gmap string string))
    (params files : gmap string pyval) : M response := fun st =>
  let sent := (log st ++ [Request method url hdrs params files])%list in
  match server st with
  | [] =>
      (raise Exception "connection failed",
       {| self := self st; now := now st; server := []; log := sent |})
  | x :: rest =>
      let st' := {| self := self st; now := (now st + took x)%Q; server := rest;
                    log := sent |} in
      match outcome x with
      | Failed why => (raise Exception why, st')
      | Answered r => (Ok r, st')
      end
  end.

(** [api_version(created_ver, last_changed_ver)] applied to [function]:
    the [wrapper] that [decorate] installs. *)
Definition api_version {A} (created_ver last_changed_ver : string)
    (function : M A) : M A :=
  c ← get_self;
  lift (version_check created_ver last_changed_ver c);;
  function.

Definition exchanges_left : M nat := fun st => (Ok (length (server st)), st).

Definition set_ratelimit_remaining (v : Z) (c : Mastodon) : Mastodon :=
  {| api_base_url := api_base_url c; client_id := client_id c;
     client_secret := client_secret c; access_token := access_token c;
     ratelimit_method := ratelimit_method c;
     ratelimit_limit := ratelimit_limit c;
     ratelimit_reset := ratelimit_reset c;
     ratelimit_remaining := v;
     ratelimit_lastcall := ratelimit_lastcall c;
     ratelimit_pacefactor := ratelimit_pacefactor c;
     mastodon_major := mastodon_major c; mastodon_minor := mastodon_minor c;
     mastodon_patch := mastodon_patch c;
     version_check_mode := version_check_mode c |}.

Definition set_ratelimit_limit (v : Z) (c : Mastodon) : Mastodon :=
  {| api_base_url := api_base_url c; client_id := client_id c;
     client_secret := client_secret c; access_token := access_token c;
     ratelimit_method := ratelimit_method c;
     ratelimit_limit := v;
     ratelimit_reset := ratelimit_reset c;
     ratelimit_remaining := ratelimit_remaining c;
     ratelimit_lastcall := ratelimit_lastcall c;
     ratelimit_pacefactor := ratelimit_pacefactor c;
     mastodon_major := mastodon_major c; mastodon_minor := mastodon_minor c;
     mastodon_patch := mastodon_patch c;
     version_check_mode := version_check_mode c |}.

Definition set_ratelimit_reset (v : Q) (c : Mastodon) : Mastodon :=
  {| api_base_url := api_base_url c; client_id := client_id c;
     client_secret := client_secret c; access_token := access_token c;
     ratelimit_method := ratelimit_method c;
     ratelimit_limit := ratelimit_limit c;
     ratelimit_reset := v;
     ratelimit_remaining := ratelimit_remaining c;
     ratelimit_lastcall := ratelimit_lastcall c;
     ratelimit_pacefactor := ratelimit_pacefactor c;
     mastodon_major := mastodon_major c; mastodon_minor := mastodon_minor c;
     mastodon_patch := mastodon_patch c;
     version_check_mode := version_check_mode c |}.

Definition set_ratelimit_lastcall (v : Q) (c : Mastodon) : Mastodon :=
  {| api_base_url := api_base_url c; client_id := client_id c;
     client_secret := client_secret c; access_token := access_token c;
     ratelimit_method := ratelimit_method c;
     ratelimit_limit := ratelimit_limit c;
     ratelimit_reset := ratelimit_reset c;
     ratelimit_remaining := ratelimit_remaining c;
     ratelimit_lastcall := v;
     ratelimit_pacefactor := ratelimit_pacefactor c;
     mastodon_major := mastodon_major c; mastodon_minor := mastodon_minor c;
     mastodon_patch := mastodon_patch c;
     version_check_mode := version_check_mode c |}.

Definition set_version (major minor patch : Z) (c : Mastodon) : Mastodon :=
  {| api_base_url := api_base_url c; client_id := client_id c;
     client_secret := client_secret c; access_token := access_token c;
     ratelimit_method := ratelimit_method c;
     ratelimit_limit := ratelimit_limit c;
     ratelimit_reset := ratelimit_reset c;
     ratelimit_remaining := ratelimit_remaining c;
     ratelimit_lastcall := ratelimit_lastcall c;
     ratelimit_pacefactor := ratelimit_pacefactor c;
     mastodon_major := major; mastodon_minor := minor;
     mastodon_patch := patch;
     version_check_mode := version_check_mode c |}.

Definition set_version_check_mode (mode : string) (c : Mastodon) : Mastodon :=
  {| api_base_url := api_base_url c; client_id := client_id c;
     client_secret := client_secret c; access_token := access_token c;
     ratelimit_method := ratelimit_method c;
     ratelimit_limit := ratelimit_limit c;
     ratelimit_reset := ratelimit_reset c;
     ratelimit_remaining := ratelimit_remaining c;
     ratelimit_lastcall := ratelimit_lastcall c;
     ratelimit_pacefactor := ratelimit_pacefactor c;
     mastodon_major := mastodon_major c; mastodon_minor := mastodon_minor c;
     mastodon_patch := mastodon_patch c;
     version_check_mode := mode |}.

Definition set_credentials (id : string) (secret token : option string)
    (c : Mastodon) : Mastodon :=
  {| api_base_url := api_base_url c; client_id := id;
     client_secret := secret; access_token := token;
     ratelimit_method := ratelimit_method c;
     ratelimit_limit := ratelimit_limit c;
     ratelimit_reset := ratelimit_reset c;
     ratelimit_remaining := ratelimit_remaining c;
     ratelimit_lastcall := ratelimit_lastcall c;
     ratelimit_pacefactor := ratelimit_pacefactor c;
     mastodon_major := mastodon_major c; mastodon_minor := mastodon_minor c;
     mastodon_patch := mastodon_patch c;
     version_check_mode := version_check_mode c |}.

Definition set_access_token (token : option string) (c : Mastodon) : Mastodon :=
  set_credentials (client_id c) (client_secret c) token c.

(** [__protocolize] *)
Definition protocolize (base_url : string) : string :=
  let base_url :=
    if negb (startswith "http://" base_url) && negb (startswith "https://" base_url)
    then "https://" +:+ base_url else base_url in
  rstrip_char "/" base_url.

(** [f.readline().rstrip()], the [n]-th time on a file of these lines. *)
Definition readline_rstrip (lines : list string) (n : nat) : string :=
  rstrip (nth n lines "").

Definition modify_self (f : Mastodon -> Mastodon) : M unit :=
  c ← get_self; set_self (f c).

(** ** The request engine *)

Definition header (hs : gmap string string) (name : string) : result string :=
  match hs !! name with
  | Some v => Ok v
  | None => raise KeyError name
  end.

(** [lst[-1][key] = x] and [lst[0][key] = x] *)
Definition set_in_last (l : list pyval) (key : string) (x : pyval)
    : result (list pyval) :=
  match l !! (length l - 1)%nat with
  | None => raise IndexError "list index out of range"
  | Some v => v' ← setitem v key x; Ok (<[(length l - 1)%nat := v']> l)
  end.

Definition set_in_first (l : list pyval) (key : string) (x : pyval)
    : result (list pyval) :=
  match l !! 0%nat with
  | None => raise IndexError "list index out of range"
  | Some v => v' ← setitem v key x; Ok (<[0%nat := v']> l)
  end.

(** The dict stored under [_pagination_next] ([key] is [max_id], [drop] is
    [since_id]) or [_pagination_prev] (the other way round). *)
Definition pagination_params (method endpoint : pyval)
    (params : gmap string pyval) (key drop : string) (id : Z)
    : gmap string pyval :=
  let p := <["_pagination_method" := method]> params in
  let p := <["_pagination_endpoint" := endpoint]> p in
  let p := <[key := VInt id]> p in
  if bool_decide (is_Some (p !! drop)) then delete drop p else p.

Fixpoint foldM {A B} (f : A -> B -> result A) (a : A) (l : list B) : result A :=
  match l with
  | [] => Ok a
  | b :: rest => a' ← f a b; foldM f a' rest
  end.

(** What one turn of the [while not request_complete] loop ends in. *)
Inductive turn :=
  | Again                (* [request_complete = False; continue] *)
  | Done (response : pyval).

Section Engine.
(** [dateutil.parser.parse], [None] when it raises. *)
Variable dateutil_parse : string -> option datetime.
(** [requests.utils.parse_header_links] *)
Variable parse_header_links : string -> list (gmap string string).

(** The right-hand sides of the two assignments in [__json_date_parse];
    [None] when the [try] block raises ([bool] is a subclass of [int];
    the parser refuses what is not text). *)
Definition date_parse_value (v : pyval) : option pyval :=
  match v with
  | VInt z => VDate <$> fromtimestamp_utc z
  | VBool b => VDate <$> fromtimestamp_utc (if b then 1 else 0)
  | VStr s => VDate <$> dateutil_parse s
  | _ => None
  end.

Definition date_parse_item (k : string) (v : pyval) : option pyval :=
  if bool_decide (k ∈ known_date_fields) then date_parse_value v else Some v.

(** [__json_date_parse]: every item is visited; the first known date
    field that does not parse ends the loop with the one exception. *)
Definition json_date_parse (json_object : gmap string pyval)
    : result (gmap string pyval) :=
  if bool_decide (map_Forall (fun k v => is_Some (date_parse_item k v)) json_object)
  then Ok (map_imap date_parse_item json_object)
  else raise MastodonAPIError "Encountered invalid date.".

(** [__json_hooks] *)
Definition json_hooks (json_object : gmap string pyval) : result pyval :=
  let json_object := json_strnum_to_bignum json_object in
  json_object ← json_date_parse json_object;
  Ok (json_allow_dict_attrs (VDict json_object)).

(** [response_object.json(object_hook=self.__json_hooks)] *)
Definition response_json (r : response) : result pyval :=
  match body r with
  | Some j => loads json_hooks j
  | None => raise ValueError "Expecting value"
  end.

(** The pace block at the head of [__api_request]. *)
Definition pace (do_ratelimiting : bool) : M unit :=
  c ← get_self;
  if do_ratelimiting && String.eqb (ratelimit_method c) "pace" then
    remaining_wait ←
      (if (ratelimit_remaining c =? 0)%Z then
         t ← time;
         let to_next := (ratelimit_reset c - t)%Q in
         (if Qltb 0 to_next then sleep (py_min to_next (5 * 60)) else mret tt);;
         mret 0%Q
       else
         t ← time;
         let time_waited := (t - ratelimit_lastcall c)%Q in
         t' ← time;
         let time_wait :=
           ((ratelimit_reset c - t') / inject_Z (ratelimit_remaining c))%Q in
         mret (time_wait - time_waited)%Q);
    if Qltb 0 remaining_wait then
      if Qeq_bool (ratelimit_pacefactor c) 0 then
        throw ZeroDivisionError "float division by zero"
      else
        let to_next := (remaining_wait / ratelimit_pacefactor c)%Q in
        sleep (py_min to_next (5 * 60))
    else mret tt
  else mret tt.

Definition parse_time (hs : gmap string string) (name : string) : M Q :=
  s ← lift (header hs name);
  match dateutil_parse s with
  | Some d => mret (datetime_to_epoch d)
  | None => throw ValueError "Unknown string format"
  end.

(** The block under [# Parse rate limiting headers]. *)
Definition parse_ratelimit_headers (r : response) (do_ratelimiting : bool)
    : M unit :=
  if bool_decide (is_Some (headers r !! "X-RateLimit-Remaining"))
     && do_ratelimiting then
    remaining ← lift (s ← header (headers r) "X-RateLimit-Remaining"; py_int s);
    modify_self (set_ratelimit_remaining remaining);;
    limit ← lift (s ← header (headers r) "X-RateLimit-Limit"; py_int s);
    modify_self (set_ratelimit_limit limit);;
    try_catch
      (reset ← parse_time (headers r) "X-RateLimit-Reset";
       modify_self (set_ratelimit_reset reset);;
       if bool_decide (is_Some (headers r !! "Date")) then
         server_time ← parse_time (headers r) "Date";
         t ← time;
         let server_time_diff := (t - server_time)%Q in
         modify_self (fun c =>
           set_ratelimit_reset (ratelimit_reset c + server_time_diff) c);;
         t' ← time;
         modify_self (set_ratelimit_lastcall t')
       else mret tt)
      Exception
      (fun _ => throw MastodonRatelimitError "Rate limit time calculations failed")
  else mret tt.

(** The [try] block of a response that is not [ok]: the assignment under
    its [if] is overwritten by [error_msg = response['error']], which
    runs in every case; only [ValueError] is caught. *)
Definition error_message (r : response) : result pyval :=
  try_except
    (response ← response_json r; getitem response "error")
    ValueError (fun _ => Ok VNone).

(** The end of the branch of a response that is not [ok]. *)
Definition raise_api_error {A} (r : response) (error_msg : pyval) : M A :=
  let '(ex_type, error_msg) :=
    if (status_code r =? 404)%Z then
      (MastodonNotFoundError,
       if negb (truthy error_msg) then VStr "Endpoint not found." else error_msg)
    else if (status_code r =? 401)%Z then (MastodonUnauthorizedError, error_msg)
    else (MastodonAPIError, error_msg) in
  lift (Raise (Exn ex_type [VStr "Mastodon API returned error";
                            VInt (status_code r); VStr (reason r); error_msg])).

(** The body of [for url in tmp_urls]. *)
Definition attach_link (method endpoint : pyval) (params : gmap string pyval)
    (response : list pyval) (url : gmap string string) : result (list pyval) :=
  match url !! "rel" with
  | None => Ok response
  | Some rel =>
      response ←
        (if String.eqb rel "next" then
           next_url ← header url "url";
           match search_id "max_id" next_url with
           | Some group1 =>
               max_id ← py_int group1;
               set_in_last response "_pagination_next"
                 (VDict (pagination_params method endpoint params
                           "max_id" "since_id" max_id))
           | None => Ok response
           end
         else Ok response);
      if String.eqb rel "prev" then
        prev_url ← header url "url";
        match search_id "since_id" prev_url with
        | Some group1 =>
            since_id ← py_int group1;
            set_in_first response "_pagination_prev"
              (VDict (pagination_params method endpoint params
                        "since_id" "max_id" since_id))
        | None => Ok response
        end
      else Ok response
  end.

(** The block under [# Parse link headers]. *)
Definition parse_link_headers (method endpoint : pyval)
    (params : gmap string pyval) (r : response) (response : pyval)
    : result pyval :=
  match response, headers r !! "Link" with
  | VList l, Some link =>
      if negb (String.eqb link "") then
        let tmp_urls :=
          parse_header_links (replace ">,<" ",<" (rstrip_char ">" link)) in
        l' ← foldM (attach_link method endpoint params) l tmp_urls;
        Ok (VList l')
      else Ok response
  | _, _ => Ok response
  end.

Definition request_headers (c : Mastodon) : option (gmap string string) :=
  match access_token c with
  | Some token => Some {[ "Authorization" := "Bearer " +:+ token ]}
  | None => None
  end.

(** One turn of the request loop. A method or an endpoint that is not a
    string makes the call of [requests.request] raise inside the [try]. *)
Definition attempt (method endpoint : pyval) (params files : gmap string pyval)
    (hdrs : option (gmap string string)) (do_ratelimiting : bool) : M turn :=
  c ← get_self;
  response_object ←
    try_catch
      (match method, endpoint with
       | VStr m, VStr e => http_request m (api_base_url c +:+ e) hdrs params files
       | _, _ => throw TypeError "must be str"
       end)
      Exception
      (fun _ => throw MastodonNetworkError "Could not complete request");
  parse_ratelimit_headers response_object do_ratelimiting;;
  if negb (ok response_object) then
    error_msg ← lift (error_message response_object);
    c ← get_self;
    if (status_code response_object =? 429)%Z then
      if String.eqb (ratelimit_method c) "throw" || negb do_ratelimiting then
        throw MastodonRatelimitError "Hit rate limit."
      else if String.eqb (ratelimit_method c) "wait"
              || String.eqb (ratelimit_method c) "pace" then
        t ← time;
        let to_next := (ratelimit_reset c - t)%Q in
        if Qltb 0 to_next then
          sleep (py_min to_next (5 * 60));; mret Again
        else raise_api_error response_object error_msg
      else raise_api_error response_object error_msg
    else raise_api_error response_object error_msg
  else
    response ←
      try_catch (lift (response_json response_object)) Exception
        (fun _ => throw MastodonAPIError "Could not parse response as JSON");
    response ← lift (parse_link_headers method endpoint params
                       response_object response);
    mret (Done response).

(** The loop; a turn that asks for another one has used up one scripted
    exchange, so [turns] starts at the number of exchanges left. *)
Fixpoint request_loop (turns : nat) (method endpoint : pyval)
    (params files : gmap string pyval) (hdrs : option (gmap string string))
    (do_ratelimiting : bool) : M pyval :=
  t ← attempt method endpoint params files hdrs do_ratelimiting;
  match t with
  | Done response => mret response
  | Again =>
      match turns with
      | S n => request_loop n method endpoint params files hdrs do_ratelimiting
      | O => throw MastodonNetworkError "Could not complete request"
      end
  end.

(** [__api_request] *)
Definition api_request (method endpoint : pyval)
    (params files : gmap string pyval) (do_ratelimiting : bool) : M pyval :=
  pace do_ratelimiting;;
  c ← get_self;
  let hdrs := request_headers c in
  turns ← exchanges_left;
  request_loop turns method endpoint params files hdrs do_ratelimiting.


(** *** Pagination *)

(** The tail shared by [fetch_next] and [fetch_previous], from
    [method = params['_pagination_method']] on. *)
Definition replay (params : pyval) : M pyval :=
  match params with
  | VDict d | VAttribAccessDict d _ =>
      method ← lift (getitem (VDict d) "_pagination_method");
      let d := delete "_pagination_method" d in
      endpoint ← lift (getitem (VDict d) "_pagination_endpoint");
      let d := delete "_pagination_endpoint" d in
      api_request method endpoint d ∅ true
  | _ =>
      _ ← lift (getitem params "_pagination_method");
      throw TypeError "object does not support item deletion"
  end.

(** [fetch_next]; Python's [None] is [VNone]. *)
Definition fetch_next (previous_page : pyval) : M pyval :=
  match previous_page with
  | VList ((_ :: _) as l) =>
      last ← lift (list_index l (length l - 1));
      has ← lift (contains "_pagination_next" last);
      if has : bool then
        params ← lift (getitem last "_pagination_next");
        replay params
      else mret VNone
  | _ => replay previous_page
  end.

(** [fetch_previous] *)
Definition fetch_previous (next_page : pyval) : M pyval :=
  match next_page with
  | VList ((_ :: _) as l) =>
      first ← lift (list_index l 0);
      has ← lift (contains "_pagination_prev" first);
      if has : bool then
        params ← lift (getitem first "_pagination_prev");
        replay params
      else mret VNone
  | _ => replay next_page
  end.

(** *** Reading data: instances *)

Definition instance_internal : M pyval :=
  api_request (VStr "GET") (VStr "/api/v1/instance/") ∅ ∅ true.

Definition instance : M pyval :=
  api_version "1.1.0" "1.4.2" instance_internal.

(** *** Construction *)

(** [retrieve_mastodon_version] *)
Definition retrieve_mastodon_version : M string :=
  version_str ←
    try_catch (i ← instance_internal; lift (getitem i "version")) Exception
      (fun _ => mret (VStr "1.0.0"));
  match version_str with
  | VStr s =>
      '(major, minor, patch) ← lift (parse_version_string s);
      modify_self (set_version major minor patch);;
      mret s
  | _ => throw AttributeError "object has no attribute 'split'"
  end.

(** [Mastodon.__init__]; [fs] gives the lines of the files that exist.
    The version fields and the check mode hold a placeholder until their
    assignment; nothing reads them before. *)
Definition init (fs : gmap string (list string))
    (client_id : string) (client_secret access_token : option string)
    (api_base_url : string) (ratelimit_method : string)
    (ratelimit_pacefactor : Q) (mastodon_version : option string)
    (version_check_mode : string) : M unit :=
  t ← time;
  t' ← time;
  set_self {| api_base_url := protocolize api_base_url;
              client_id := client_id; client_secret := client_secret;
              access_token := access_token;
              ratelimit_method := ratelimit_method;
              ratelimit_limit := 300; ratelimit_reset := t;
              ratelimit_remaining := 300; ratelimit_lastcall := t';
              ratelimit_pacefactor := ratelimit_pacefactor;
              mastodon_major := 0; mastodon_minor := 0; mastodon_patch := 0;
              version_check_mode := "" |};;
  (* Versioning *)
  (match mastodon_version with
   | None => retrieve_mastodon_version;; mret tt
   | Some v =>
       '(major, minor, patch) ←
         try_catch (lift (parse_version_string v)) Exception
           (fun _ => throw MastodonVersionError "Bad version specified");
       modify_self (set_version major minor patch)
   end);;
  (if negb (bool_decide (version_check_mode ∈ ["created"; "changed"; "none"]))
   then throw MastodonIllegalArgumentError "Invalid version check method."
   else mret tt);;
  modify_self (set_version_check_mode version_check_mode);;
  (* Ratelimiting parameter check *)
  (if negb (bool_decide (ratelimit_method ∈ ["throw"; "wait"; "pace"]))
   then throw MastodonIllegalArgumentError "Invalid ratelimit method."
   else mret tt);;
  (* Token loading *)
  (match fs !! client_id with
   | Some secret_file =>
       modify_self (set_credentials (readline_rstrip secret_file 0)
                      (Some (readline_rstrip secret_file 1)) (access_token))
   | None =>
       match client_secret with
       | None => throw MastodonIllegalArgumentError
                   "Specified client id directly, but did not supply secret"
       | Some _ => mret tt
       end
   end);;
  match access_token with
  | Some token =>
      match fs !! token with
      | Some token_file =>
          modify_self (set_access_token (Some (readline_rstrip token_file 0)))
      | None => mret tt
      end
  | None => mret tt
  end.

(** *** Streaming *)

(** [__stream], the block under [# Check if we have to redirect]. *)
Definition stream_url : M string :=
  instance ← instance;
  urls ← lift (getitem instance "urls");
  advertised ← lift (contains "streaming_api" urls);
  c ← get_self;
  if advertised : bool then
    streaming_api ← lift (getitem urls "streaming_api");
    if differs_from streaming_api (api_base_url c) then
      parse ← lift (urlparse streaming_api);
      if String.eqb (scheme parse) "wss" then mret ("https://" +:+ netloc parse)
      else if String.eqb (scheme parse) "ws" then mret ("http://" +:+ netloc parse)
      else throw MastodonAPIError
             "Could not parse streaming api location returned from server"
    else mret (api_base_url c)
  else mret (api_base_url c).

(** [__stream], from the removal of a trailing slash to the check of the
    connection's status: the request is in the log, the answer is the
    open connection. *)
Definition stream_open (url endpoint : string) (params : gmap string pyval)
    : M response :=
  last ← lift (match last_char url with
               | Some a => Ok a
               | None => raise IndexError "string index out of range"
               end);
  let url := if Ascii.eqb last "/" then drop_last url else url in
  c ← get_self;
  token ← lift (match access_token c with
                | Some t => Ok t
                | None => raise TypeError "must be str, not NoneType"
                end);
  let hdrs : gmap string string := {[ "Authorization" := "Bearer " +:+ token ]} in
  connection ← http_request "GET" (url +:+ endpoint) (Some hdrs) params ∅;
  if negb (status_code connection =? 200)%Z then
    throw MastodonNetworkError "Could not connect to streaming server"
  else mret connection.

Definition stream (endpoint : string) (params : gmap string pyval) : M response :=
  url ← stream_url;
  stream_open url endpoint params.

End Engine.

(** The handle [__stream] builds around the open connection. *)
Record stream_handle := { closed : bool; connection : response }.

Definition new_stream_handle (connection : response) : stream_handle :=
  {| closed := false; connection := connection |}.

(** [__stream_handle.close] *)
Definition close (h : stream_handle) : stream_handle :=
  {| closed := true; connection := connection h |}.

(** [__stream_handle._threadproc]: [handled] is how
    [listener.handle_stream(r)] ended, [h] is the handle as it is when the
    [except] clause runs. *)
Definition threadproc (h : stream_handle) (handled : result unit) : result Z :=
  _ ← try_except handled AttributeError
        (fun e => if negb (closed h) then Raise e else Ok tt);
  Ok 0.

(** The blocking branch of [__stream]. *)
Definition stream_blocking (handled : result unit) : result unit := handled.

(** ** Notions the statements below use *)

(** The version of the server the client holds. *)
Definition server_version (c : Mastodon) : Z * Z * Z :=
  (mastodon_major c, mastodon_minor c, mastodon_patch c).

(** The gate lets every decorated function run, or stops every one with a
    [MastodonVersionError], in the state [st]. *)
Definition gate_passes (created_ver last_changed_ver : string) (st : state) : Prop :=
  forall A (function : M A),
    api_version created_ver last_changed_ver function st = function st.

Definition gate_raises (created_ver last_changed_ver : string) (st : state) : Prop :=
  exists msg, forall A (function : M A),
    api_version created_ver last_changed_ver function st
    = (raise MastodonVersionError msg, st).

(** A non-empty run of ASCII digits. *)
Definition numeral (d : string) : Prop :=
  d <> "" /\ string_forallb is_digit d = true.

(** What may follow the digits of a version component: no dot, and no
    digit in front. *)
Definition version_suffix (s : string) : Prop :=
  has_char "." s = false /\ leading_digits s = "".

(** What an operation leaves alone: the log, the script, the clock and the
    configuration of the client. *)
Definition same_outside (st st' : state) : Prop :=
  log st' = log st /\ server st' = server st /\ now st' = now st
  /\ ratelimit_method (self st') = ratelimit_method (self st)
  /\ api_base_url (self st') = api_base_url (self st).

Definition frames {A} (m : M A) : Prop :=
  forall st, same_outside st (snd (m st)).

(** The state once a request has met the scripted exchange [x], and the
    state once a sleep is over. *)
Definition sent (st : state) (x : exchange) (rest : list exchange)
    (request : event) : state :=
  {| self := self st; now := (now st + took x)%Q; server := rest;
     log := (log st ++ [request])%list |}.


(** The sleeps recorded in a log, in order. *)
Definition sleeps (l : list event) : list Q :=
  omap (fun e => match e with Sleep d => Some d | Request _ _ _ _ _ => None end) l.

(** The requests recorded in a log, in order. *)
Definition requests (l : list event) : list event :=
  omap (fun e => match e with Request _ _ _ _ _ => Some e | Sleep _ => None end) l.


(** Text that [int()] refuses, or no text at all. *)
Definition not_numeral (v : pyval) : Prop :=
  forall s, v = VStr s -> exists e, py_int s = Raise e.

(** *** Concrete clients, servers and library stand-ins *)

Definition example_client (method : string) (remaining : Z) (reset : Q) : Mastodon :=
  {| api_base_url := "https://mastodon.example"; client_id := "id";
     client_secret := Some "secret"; access_token := Some "token";
     ratelimit_method := method; ratelimit_limit := 300;
     ratelimit_reset := reset; ratelimit_remaining := remaining;
     ratelimit_lastcall := 0; ratelimit_pacefactor := 11 # 10;
     mastodon_major := 2; mastodon_minor := 2; mastodon_patch := 0;
     version_check_mode := "created" |}.

Definition example_state (c : Mastodon) (t : Q) (srv : list exchange) : state :=
  {| self := c; now := t; server := srv; log := [] |}.

Definition answer (status : Z) (hs : gmap string string) (b : option json)
    : exchange :=
  {| took := 1;
     outcome := Answered {| status_code := status; reason := "";
                            headers := hs; body := b |} |}.

(** A date parser that knows no format, and a link parser that reads the
    whole header value as the URL of one [rel="next"] link. *)
Definition no_dates (s : string) : option datetime := None.

Definition one_next_link (s : string) : list (gmap string string) :=
  [ {[ "url" := s; "rel" := "next" ]} ].

Definition example_connection : response :=
  {| status_code := 200; reason := "OK"; headers := ∅; body := None |}.




(** *** Decoded payloads *)

(** The two inner loops of [loads], by name. *)
Definition loads_list (hook : gmap string pyval -> result pyval)
    : list json -> result (list pyval) :=
  fix go (items : list json) : result (list pyval) :=
    match items with
    | [] => Ok []
    | x :: rest => v ← loads hook x; vs ← go rest; Ok (v :: vs)
    end.

Definition loads_members (hook : gmap string pyval -> result pyval)
    : list (string * json) -> gmap string pyval -> result (gmap string pyval) :=
  fix go (members : list (string * json)) (acc : gmap string pyval)
      : result (gmap string pyval) :=
    match members with
    | [] => Ok acc
    | (k, x) :: rest => v ← loads hook x; go rest (<[k := v]> acc)
    end.

(** Induction on a JSON text, through its arrays and objects. *)
Section json_induction.
Variable P : json -> Prop.
Hypothesis Hnull : P JNull.
Hypothesis Hbool : forall b, P (JBool b).
Hypothesis Hint : forall z, P (JInt z).
Hypothesis Hreal : forall q, P (JReal q).
Hypothesis Hstring : forall s, P (JString s).
Hypothesis Harray : forall items, Forall P items -> P (JArray items).
Hypothesis Hobject :
  forall members, Forall (fun kv => P (snd kv)) members -> P (JObject members).

Fixpoint json_induction (j : json) : P j :=
  match j with
  | JNull => Hnull
  | JBool b => Hbool b
  | JInt z => Hint z
  | JReal q => Hreal q
  | JString s => Hstring s
  | JArray items =>
      Harray items
        ((fix go (l : list json) : Forall P l :=
            match l with
            | [] => @List.Forall_nil _ P
            | x :: rest => @List.Forall_cons _ P x rest (json_induction x) (go rest)
            end) items)
  | JObject members =>
      Hobject members
        ((fix go (l : list (string * json)) : Forall (fun kv => P (snd kv)) l :=
            match l with
            | [] => @List.Forall_nil _ (fun kv => P (snd kv))
            | kv :: rest =>
                @List.Forall_cons _ (fun kv => P (snd kv)) kv rest
                  (json_induction (snd kv)) (go rest)
            end) members)
  end.
End json_induction.

(** *** Decoded payloads, in the words of the specification *)

(** The widening of one field: the text of an identifier field becomes
    the integer [int()] reads from it, when it reads one. *)
Definition widen (k : string) (v : pyval) : pyval :=
  if bool_decide (k ∈ json_strnum_keys) then
    match v with
    | VStr s => match py_int s with Ok n => VInt n | Raise _ => v end
    | _ => v
    end
  else v.

(** The three transforms on the members of one object, field by field:
    the value is widened, then parsed as a date when the field is a known
    date field, and the whole is wrapped; one date that does not parse
    fails the object. *)
Definition three_transforms (dateutil_parse : string -> option datetime)
    (o : gmap string pyval) : result pyval :=
  let field k v := date_parse_item dateutil_parse k (widen k v) in
  if bool_decide (map_Forall (fun k v => is_Some (field k v)) o)
  then Ok (VAttribAccessDict (map_imap field o) ∅)
  else raise MastodonAPIError "Encountered invalid date.".

(** A value on which the three transforms have left their mark, at every
    depth: each mapping is an [AttribAccessDict] with no instance
    attribute, each known date field holds a date of the kind [D], and no
    identifier field holds text that [int()] accepts. *)
Inductive hooked (D : datetime -> Prop) : pyval -> Prop :=
  | hooked_none : hooked D VNone
  | hooked_bool b : hooked D (VBool b)
  | hooked_int z : hooked D (VInt z)
  | hooked_float q : hooked D (VFloat q)
  | hooked_str s : hooked D (VStr s)
  | hooked_list l : (forall v, v ∈ l -> hooked D v) -> hooked D (VList l)
  | hooked_record d :
      (forall k v, d !! k = Some v ->
         (k ∈ known_date_fields -> exists dt, v = VDate dt /\ D dt)
         /\ (k ∉ known_date_fields -> hooked D v)
         /\ (k ∈ json_strnum_keys -> not_numeral v)) ->
      hooked D (VAttribAccessDict d ∅).

(** A date with a time zone. *)
Definition aware (dt : datetime) : Prop := is_Some (utcoffset dt).

(** [dateutil.parser.parse] on the text of the example below: a date and a
    time of day without a zone are read as a naive datetime. The stand-in
    knows no other text. *)
Definition dateutil_no_zone (s : string) : option datetime :=
  if String.eqb s "2017-04-01 12:00:00"
  then Some (Datetime (inject_Z 1491048000) None)
  else None.

(** A server that answers one page of two statuses, with a link to the
    next page. *)
Definition page_state : state :=
  example_state (example_client "wait" 300 0) 0
    [answer 200 {[ "Link" := "https://mastodon.example/api/v1/timelines/home?max_id=7" ]}
       (Some (JArray [JObject [("id", JString "9")];
                      JObject [("id", JString "8")]]))].

(** The payload [v] is the decoding of the body of the answer of the
    exchange [x], an answer that is [ok], with the cursors of its links
    attached. *)
Definition decoded_from (dp : string -> option datetime)
    (phl : string -> list (gmap string string)) (method endpoint : pyval)
    (params : gmap string pyval) (x : exchange) (v : pyval) : Prop :=
  exists r j v0,
    outcome x = Answered r /\ ok r = true /\ body r = Some j
    /\ loads (json_hooks dp) j = Ok v0
    /\ parse_link_headers phl method endpoint params r v0 = Ok v.

(** A server that is out of quota: it answers 429 with an error body, then
    would answer the page. *)
Definition too_many_requests : exchange :=
  answer 429 ∅ (Some (JObject [("error", JString "Too many requests")])).

Definition throttled_state (method : string) (reset t : Q) : state :=
  example_state (example_client method 0 reset) t
    [too_many_requests; answer 200 ∅ (Some (JArray []))].

(** A client whose tracked quota is spent, in front of a server that still
    answers. *)
Definition quota_spent_state : state :=
  example_state (example_client "throw" 0 100) 10
    [answer 200 ∅ (Some (JArray []))].

(** ** Further definitions *)

Definition not_found_state : state :=
  example_state (example_client "wait" 300 0) 0
    [answer 404 ∅ (Some (JObject [("error", JString "")]))].

Definition bare_failure_state : state :=
  example_state (example_client "throw" 300 0) 0
    [answer 429 ∅ (Some (JObject [("message", JString "slow down")]))].

Definition undated_state : state :=
  example_state (example_client "wait" 300 0) 0
    [answer 200 ∅ (Some (JObject [("created_at", JString "yesterday")]))].

(** A parser for tests: it reads a number of seconds since the epoch. *)
Definition seconds_since_epoch (s : string) : option datetime :=
  match py_int s with
  | Ok z => Some (Datetime (inject_Z z) (Some 0%Q))
  | Raise _ => None
  end.

Definition limited_response : response :=
  {| status_code := 200; reason := "OK";
     headers := {[ "X-RateLimit-Remaining" := "299"; "X-RateLimit-Limit" := "300";
                   "X-RateLimit-Reset" := "1300"; "Date" := "1000" ]};
     body := Some (JArray []) |}.

(** Every sleep on record lasted between 0 and 300 seconds. *)
Definition bounded_sleeps (st : state) : Prop :=
  Forall (fun d => (0 <= d)%Q /\ (d <= 300)%Q) (sleeps (log st)).

Definition keeps_bound {A} (m : M A) : Prop :=
  forall st, bounded_sleeps st -> bounded_sleeps (snd (m st)).

(** [verify_minimum_version] *)
Definition verify_minimum_version (dateutil_parse : string -> option datetime)
    (parse_header_links : string -> list (gmap string string))
    (version_str : string) : M bool :=
  retrieve_mastodon_version dateutil_parse parse_header_links;;
  '(major, minor, patch) ← lift (parse_version_string version_str);
  c ← get_self;
  if (major >? mastodon_major c)%Z then mret false
  else if (major =? mastodon_major c)%Z && (minor >? mastodon_minor c)%Z
  then mret false
  else if (major =? mastodon_major c)%Z && (minor =? mastodon_minor c)%Z
          && (patch >? mastodon_patch c)%Z
  then mret false
  else mret true.

Definition plain_instance_state : state :=
  example_state (example_client "wait" 300 0) 0
    [answer 200 ∅ (Some (JObject [("urls", JObject [])])); answer 503 ∅ None].

Definition pydict : Type := list (string * pyval).

Definition dict_keys (d : pydict) : list string := map fst d.

Fixpoint dict_get (d : pydict) (key : string) : option pyval :=
  match d with
  | [] => None
  | (k, v) :: rest => if String.eqb k key then Some v else dict_get rest key
  end.

(** [d[key]] *)
Definition dict_getitem (d : pydict) (key : string) : result pyval :=
  match dict_get d key with
  | Some v => Ok v
  | None => raise KeyError key
  end.

(** [del d[key]] *)
Definition dict_del (d : pydict) (key : string) : result pydict :=
  match dict_get d key with
  | Some _ => Ok (List.filter (fun kv => negb (String.eqb (fst kv) key)) d)
  | None => raise KeyError key
  end.

(** [d[key] = v]: in place when the key is there, at the end otherwise. *)
Fixpoint dict_set (d : pydict) (key : string) (v : pyval) : pydict :=
  match d with
  | [] => [(key, v)]
  | (k, x) :: rest =>
      if String.eqb k key then (k, v) :: rest else (k, x) :: dict_set rest key v
  end.

Definition is_none (v : pyval) : bool :=
  match v with VNone => true | _ => false end.

(** The bodies of the two loops of [__generate_params]. *)
Definition drop_unwanted (exclude : list string) (params : pydict) (key : string)
    : result pydict :=
  v ← dict_getitem params key;
  if is_none v || bool_decide (key ∈ exclude) then dict_del params key
  else Ok params.

Definition rename_list (params : pydict) (key : string) : result pydict :=
  v ← dict_getitem params key;
  match v with
  | VList _ => dict_del (dict_set params (key +:+ "[]") v) key
  | _ => Ok params
  end.

(** [__generate_params] *)
Definition generate_params (params : pydict) (exclude : list string)
    : result pydict :=
  params ← dict_del params "self";
  params ← foldM (drop_unwanted exclude) params (dict_keys params);
  foldM rename_list params (dict_keys params).

Definition bracketed (key : string) : Prop := exists k, key = k +:+ "[]".

(** The log has grown by [n] copies of the request [req], and the base URL
    is the one of [st]. *)
Definition repeats (req : event) (n : nat) (st st' : state) : Prop :=
  requests (log st') = (requests (log st) ++ replicate n req)%list
  /\ api_base_url (self st') = api_base_url (self st).

(** What sends nothing and leaves the client and the script alone. *)
Definition silent {A} (m : M A) : Prop :=
  forall st, requests (log (snd (m st))) = requests (log st)
             /\ self (snd (m st)) = self st
             /\ server (snd (m st)) = server st.

(** * Proofs *)

(** ** The version gate *)

Lemma version_check_spec created_ver last_changed_ver c v :
  version_check_mode c <> "none" ->
  parse_version_string
    (if String.eqb (version_check_mode c) "created" then created_ver
     else last_changed_ver) = Ok v ->
  (version_le v (server_version c) /\
     version_check created_ver last_changed_ver c = Ok tt)
  \/ (~ version_le v (server_version c) /\
      exists msg, version_check created_ver last_changed_ver c
                  = raise MastodonVersionError msg).
Proof.
  intros Hmode Hparse. unfold version_check.
  apply String.eqb_neq in Hmode. rewrite Hmode. cbn [negb].
  rewrite Hparse. destruct v as [[a b] d]. cbn.
  unfold version_le, server_version.
  destruct (Z.gtb_spec a (mastodon_major c)).
  { right. split; [lia | eauto]. }
  destruct (Z.eqb_spec a (mastodon_major c)); cbn [andb].
  2:{ left. split; [lia | reflexivity]. }
  destruct (Z.gtb_spec b (mastodon_minor c)).
  { right. split; [lia | eauto]. }
  destruct (Z.eqb_spec b (mastodon_minor c)); cbn [andb].
  2:{ left. split; [lia | reflexivity]. }
  destruct (Z.gtb_spec d (mastodon_patch c)).
  { right. split; [lia | eauto]. }
  left. split; [lia | reflexivity].
Qed.

Lemma api_version_ok {A} cr lc (f : M A) st :
  version_check cr lc (self st) = Ok tt -> api_version cr lc f st = f st.
Proof.
  intros H. unfold api_version, mbind, M_bind, get_self, lift. rewrite H.
  reflexivity.
Qed.

Lemma api_version_raise {A} cr lc (f : M A) st e :
  version_check cr lc (self st) = Raise e -> api_version cr lc f st = (Raise e, st).
Proof.
  intros H. unfold api_version, mbind, M_bind, get_self, lift. rewrite H.
  reflexivity.
Qed.

(** C1. With [version_check_mode] "created" (resp. "changed") and a
    required version that parses to [v], the gate lets the decorated
    function run exactly when [v] is lexicographically at most the server's
    (major, minor, patch), equality included, and stops it with a
    [MastodonVersionError] otherwise; with mode "none" it always lets it
    run. *)
Theorem version_gate_lexicographic (created_ver last_changed_ver : string)
    (st : state) (v : Z * Z * Z) :
  (version_check_mode (self st) = "none" ->
     gate_passes created_ver last_changed_ver st)
  /\ ((version_check_mode (self st) = "created"
       /\ parse_version_string created_ver = Ok v)
      \/ (version_check_mode (self st) = "changed"
          /\ parse_version_string last_changed_ver = Ok v) ->
      (gate_passes created_ver last_changed_ver st
       <-> version_le v (server_version (self st)))
      /\ (~ version_le v (server_version (self st)) ->
          gate_raises created_ver last_changed_ver st)).
Proof.
  split.
  - intros Hnone A f. apply api_version_ok.
    unfold version_check. rewrite Hnone. reflexivity.
  - intros Hmode.
    assert (Hspec := version_check_spec created_ver last_changed_ver (self st) v).
    destruct Hspec as [[Hle Hok] | [Hnle [msg Hraise]]].
    + destruct Hmode as [[-> _] | [-> _]]; discriminate.
    + destruct Hmode as [[-> Hp] | [-> Hp]]; exact Hp.
    + split; [| tauto]. split; [tauto |].
      intros _ A f. now apply api_version_ok.
    + split.
      * split; [| tauto]. intros Hpass. exfalso.
        specialize (Hpass unit (mret tt)).
        rewrite (api_version_raise _ _ _ _ _ Hraise) in Hpass. discriminate.
      * intros _. exists msg. intros A f. now apply api_version_raise.
Qed.

Lemma version_gate_lexicographic_witness :
  (gate_passes "1.1.0" "1.4.2" (example_state (example_client "wait" 300 0) 0 [])
   <-> version_le (1, 1, 0) (2, 2, 0))
  /\ (gate_passes "2.1.2" "2.4.3rc1" (example_state (example_client "wait" 300 0) 0 [])
   <-> version_le (2, 1, 2) (2, 2, 0)).
Proof.
  split.
  - apply (version_gate_lexicographic "1.1.0" "1.4.2"
             (example_state (example_client "wait" 300 0) 0 []) (1, 1, 0)).
    left. split; reflexivity.
  - apply (version_gate_lexicographic "2.1.2" "2.4.3rc1"
             (example_state (example_client "wait" 300 0) 0 []) (2, 1, 2)).
    left. split; reflexivity.
Defined.

Lemma is_digit_not_space a : is_digit a = true -> is_c_space a = false.
Proof.
  unfold is_digit, is_c_space. intros H.
  apply andb_true_iff in H as [H1 H2].
  apply N.leb_le in H1. apply N.leb_le in H2.
  apply orb_false_iff. split.
  - apply andb_false_iff. right. apply N.leb_gt. lia.
  - apply N.eqb_neq. lia.
Qed.

Lemma is_digit_ascii d : string_forallb is_digit d = true -> is_ascii d = true.
Proof.
  induction d as [| a d IH]; cbn; [reflexivity |].
  intros [Ha Hd]%andb_true_iff. rewrite (IH Hd), andb_true_r.
  unfold is_digit in Ha. apply andb_true_iff in Ha as [_ H2].
  apply N.leb_le in H2. apply N.ltb_lt. lia.
Qed.

Lemma is_digit_not_dot a : is_digit a = true -> Ascii.eqb a "." = false.
Proof.
  intros H. destruct (Ascii.eqb_spec a "."); [subst; discriminate | reflexivity].
Qed.

Lemma numeral_no_dot d : string_forallb is_digit d = true -> has_char "." d = false.
Proof.
  induction d as [| a d IH]; cbn; [reflexivity |].
  intros [Ha Hd]%andb_true_iff. rewrite (is_digit_not_dot a Ha). auto.
Qed.

Lemma has_char_app c s t : has_char c (s +:+ t) = has_char c s || has_char c t.
Proof.
  induction s as [| a s IH]; simpl; [reflexivity |].
  rewrite IH. now rewrite orb_assoc.
Qed.

Lemma split_no_sep sep s : has_char sep s = false -> split sep s = [s].
Proof.
  induction s as [| a s IH]; cbn; [reflexivity |].
  intros [Ha Hs]%orb_false_iff. rewrite Ha, (IH Hs). reflexivity.
Qed.

Lemma split_app sep s t :
  has_char sep s = false ->
  split sep (s +:+ String sep t) = s :: split sep t.
Proof.
  induction s as [| a s IH]; simpl.
  - intros _. now rewrite Ascii.eqb_refl.
  - intros [Ha Hs]%orb_false_iff. rewrite Ha, (IH Hs). reflexivity.
Qed.

Lemma leading_digits_app d s :
  string_forallb is_digit d = true -> leading_digits s = "" ->
  leading_digits (d +:+ s) = d.
Proof.
  induction d as [| a d IH]; simpl; [auto |].
  intros [Ha Hd]%andb_true_iff Hs. rewrite Ha. f_equal. auto.
Qed.

Lemma rstrip_digits d : string_forallb is_digit d = true -> rstrip_c d = d.
Proof.
  induction d as [| a d IH]; cbn; [reflexivity |].
  intros [Ha Hd]%andb_true_iff. rewrite (IH Hd).
  destruct d; [now rewrite (is_digit_not_space a Ha) | reflexivity].
Qed.

Lemma int_body_digits b d :
  string_forallb is_digit d = true -> (d <> "" \/ b = true) ->
  int_body b d = Some d.
Proof.
  revert b. induction d as [| a d IH]; cbn; intros b Hd Hne.
  - destruct Hne as [Hne | ->]; [congruence | reflexivity].
  - apply andb_true_iff in Hd as [Ha Hd]. rewrite Ha.
    rewrite (IH true Hd) by auto. reflexivity.
Qed.

Lemma py_int_numeral d : numeral d -> py_int d = Ok (digits_value 0 d).
Proof.
  intros [Hne Hd]. unfold py_int. rewrite (is_digit_ascii d Hd).
  destruct d as [| a d]; [congruence |].
  assert (Ha : is_digit a = true) by (cbn in Hd; now apply andb_true_iff in Hd).
  assert (Hl : lstrip_c (String a d) = String a d).
  { cbn. now rewrite (is_digit_not_space a Ha). }
  rewrite Hl, (rstrip_digits _ Hd).
  destruct (Ascii.eqb_spec a "-") as [-> |]; [discriminate |].
  destruct (Ascii.eqb_spec a "+") as [-> |]; [discriminate |].
  assert (Hb : int_body false (String a d) = Some (String a d))
    by (apply int_body_digits; [exact Hd | left; congruence]).
  destruct a as [[] [] [] [] [] [] [] []]; try congruence; rewrite Hb; reflexivity.
Qed.

Lemma parse_three d1 s1 d2 s2 d3 s3 :
  numeral d1 -> numeral d2 -> numeral d3 ->
  version_suffix s1 -> version_suffix s2 -> version_suffix s3 ->
  parse_version_string
    ((d1 +:+ s1) +:+ String "." ((d2 +:+ s2) +:+ String "." (d3 +:+ s3)))
  = Ok (digits_value 0 d1, digits_value 0 d2, digits_value 0 d3).
Proof.
  intros N1 N2 N3 [D1 L1] [D2 L2] [D3 L3].
  unfold parse_version_string.
  rewrite split_app by (rewrite has_char_app, (numeral_no_dot d1), D1; [reflexivity | apply N1]).
  rewrite split_app by (rewrite has_char_app, (numeral_no_dot d2), D2; [reflexivity | apply N2]).
  rewrite split_no_sep by (rewrite has_char_app, (numeral_no_dot d3), D3; [reflexivity | apply N3]).
  cbn [list_index lookup list_lookup mbind result_bind].
  rewrite !leading_digits_app by (first [apply N1 | apply N2 | apply N3 | assumption]).
  rewrite (py_int_numeral d1 N1), (py_int_numeral d2 N2), (py_int_numeral d3 N3).
  reflexivity.
Qed.

(** C9. ["2.4.3rc1"] parses to (2, 4, 3); ["abc"] fails to parse, and a
    client constructed with that version fails in the constructor, with a
    [MastodonVersionError] and before any request; in general whatever
    follows the digits of each of the three dotted components is dropped. *)
Theorem parse_version_string_strips_suffixes :
  parse_version_string "2.4.3rc1" = Ok (2, 4, 3)
  /\ parse_version_string "abc"
     = raise ValueError "invalid literal for int() with base 10: "
  /\ (forall dateutil_parse parse_header_links fs client_id client_secret
        access_token api_base_url ratelimit_method ratelimit_pacefactor
        version_check_mode st,
        let out := init dateutil_parse parse_header_links fs client_id
                     client_secret access_token api_base_url ratelimit_method
                     ratelimit_pacefactor (Some "abc") version_check_mode st in
        fst out = raise MastodonVersionError "Bad version specified"
        /\ log (snd out) = log st)
  /\ (forall d1 s1 d2 s2 d3 s3,
        numeral d1 -> numeral d2 -> numeral d3 ->
        version_suffix s1 -> version_suffix s2 -> version_suffix s3 ->
        parse_version_string
          ((d1 +:+ s1) +:+ String "." ((d2 +:+ s2) +:+ String "." (d3 +:+ s3)))
        = Ok (digits_value 0 d1, digits_value 0 d2, digits_value 0 d3)).
Proof.
  split; [reflexivity |]. split; [reflexivity |]. split.
  - intros. split; reflexivity.
  - apply parse_three.
Qed.

Lemma parse_version_string_strips_suffixes_witness :
  parse_version_string ("2" +:+ "" +:+ String "." (("4" +:+ "") +:+ String "." ("3" +:+ "rc1")))
  = Ok (2, 4, 3).
Proof.
  apply (proj2 (proj2 (proj2 parse_version_string_strips_suffixes))
           "2" "" "4" "" "3" "rc1");
    repeat split; (reflexivity || discriminate).
Defined.





(** C8 as stated fails: a [ValueError] from the handler after an explicit
    [close] still propagates out of the worker. *)
Lemma threadproc_swallows_only_attribute_error_counterexample :
  closed (close (new_stream_handle example_connection)) = true
  /\ threadproc (close (new_stream_handle example_connection))
       (raise ValueError "bad event")
     = raise ValueError "bad event".
Proof. split; reflexivity. Qed.

(** C8, amended. An exception of the handler is swallowed by the worker
    exactly when the handle is closed and the exception is an
    [AttributeError] (or of a subclass); every other one propagates, as
    does every exception in the blocking mode. *)
Theorem threadproc_swallows_only_attribute_error (h : stream_handle) (e : exn) :
  threadproc h (Raise e)
  = (if closed h && issubclass (exn_cls e) AttributeError then Ok 0 else Raise e)
  /\ stream_blocking (Raise e) = Raise e.
Proof.
  split; [| reflexivity].
  unfold threadproc, try_except.
  destruct (issubclass (exn_cls e) AttributeError), (closed h); reflexivity.
Qed.

(** C5 at the failing input: on an empty page, which has no cursor,
    [fetch_next] and [fetch_previous] raise a [TypeError] instead of
    returning [None]; nothing is sent. *)
Theorem fetch_on_empty_page_raises dateutil_parse parse_header_links (st : state) :
  fetch_next dateutil_parse parse_header_links (VList []) st
  = (raise TypeError "list indices must be integers or slices, not str", st)
  /\ fetch_previous dateutil_parse parse_header_links (VList []) st
     = (raise TypeError "list indices must be integers or slices, not str", st).
Proof. split; reflexivity. Qed.

(** What the two functions do on a page that has records but no cursor. *)
Lemma fetch_next_no_cursor dateutil_parse parse_header_links l d attrs st :
  last l = Some (VAttribAccessDict d attrs) -> d !! "_pagination_next" = None ->
  fetch_next dateutil_parse parse_header_links (VList l) st = (Ok VNone, st).
Proof.
  intros Hlast Hd. destruct l as [| x l]; [discriminate |].
  unfold fetch_next, list_index.
  rewrite last_lookup in Hlast.
  replace (length (x :: l) - 1)%nat with (Nat.pred (length (x :: l))) by (cbn; lia).
  unfold mbind at 1, M_bind, lift. rewrite Hlast.
  unfold mbind, M_bind, lift, contains. rewrite Hd. reflexivity.
Qed.

Lemma fetch_previous_no_cursor dateutil_parse parse_header_links x l d attrs st :
  x = VAttribAccessDict d attrs -> d !! "_pagination_prev" = None ->
  fetch_previous dateutil_parse parse_header_links (VList (x :: l)) st = (Ok VNone, st).
Proof.
  intros -> Hd. unfold fetch_previous, list_index.
  change ((VAttribAccessDict d attrs :: l) !! 0%nat)
    with (Some (VAttribAccessDict d attrs)).
  unfold mbind, M_bind, lift, contains. rewrite Hd. reflexivity.
Qed.

(** ** Streaming: where the session connects *)





Lemma append_cons a s t : String a s +:+ t = String a (s +:+ t).
Proof. reflexivity. Qed.







(** ** Pagination: what [fetch_next] replays *)






(** ** Decoding: the three passes of [__json_hooks] *)

Lemma loads_array hook items :
  loads hook (JArray items) = (l ← loads_list hook items; Ok (VList l)).
Proof. reflexivity. Qed.

Lemma loads_object hook members :
  loads hook (JObject members) = (d ← loads_members hook members ∅; hook d).
Proof. reflexivity. Qed.

Lemma strnum_to_bignum_key_lookup o key k :
  strnum_to_bignum_key o key !! k = o !! k
  \/ (k = key /\ exists n, strnum_to_bignum_key o key !! k = Some (VInt n)).
Proof.
  unfold strnum_to_bignum_key.
  destruct (o !! key) as [[] |] eqn:E; auto.
  destruct (py_int s) as [n |] eqn:En; auto.
  destruct (decide (k = key)) as [-> |].
  - right. split; [reflexivity |]. exists n. apply lookup_insert_eq.
  - left. now apply lookup_insert_ne.
Qed.

Lemma strnum_to_bignum_key_done o key v :
  strnum_to_bignum_key o key !! key = Some v -> not_numeral v.
Proof.
  unfold strnum_to_bignum_key, not_numeral.
  destruct (o !! key) as [x |] eqn:E; [| rewrite E; discriminate].
  destruct x; try (rewrite E; intros [= <-]; discriminate).
  destruct (py_int s) as [n | e] eqn:En.
  - rewrite lookup_insert_eq. intros [= <-]. discriminate.
  - rewrite E. intros [= <-] s' [= <-]. eauto.
Qed.

Lemma strnum_fold_keeps (R : pyval -> Prop) keys : forall o k,
  (forall n, R (VInt n)) ->
  (forall v, o !! k = Some v -> R v) ->
  forall v, foldl strnum_to_bignum_key o keys !! k = Some v -> R v.
Proof.
  induction keys as [| key keys IH]; intros o k HR Ho v; simpl; [apply Ho |].
  apply IH; [exact HR |]. intros v' Hv'.
  destruct (strnum_to_bignum_key_lookup o key k) as [H | [_ [n H]]].
  - apply Ho. now rewrite <- H.
  - rewrite H in Hv'. injection Hv' as <-. apply HR.
Qed.

Lemma strnum_fold_done keys : forall o k v,
  k ∈ keys -> foldl strnum_to_bignum_key o keys !! k = Some v -> not_numeral v.
Proof.
  induction keys as [| key keys IH]; intros o k v Hin; simpl.
  - inversion Hin.
  - apply elem_of_cons in Hin as [-> | Hin].
    + apply (strnum_fold_keeps not_numeral keys (strnum_to_bignum_key o key) key).
      * intros n s Hs. discriminate Hs.
      * apply strnum_to_bignum_key_done.
    + now apply IH.
Qed.

Lemma date_parse_value_date dp v v' :
  date_parse_value dp v = Some v' -> exists dt, v' = VDate dt.
Proof.
  destruct v; simpl; try discriminate.
  - destruct (fromtimestamp_utc _); simpl; [intros [= <-]; eauto | discriminate].
  - destruct (fromtimestamp_utc _); simpl; [intros [= <-]; eauto | discriminate].
  - destruct (dp s); simpl; [intros [= <-]; eauto | discriminate].
Qed.

Lemma json_strnum_to_bignum_fold o :
  json_strnum_to_bignum o = foldl strnum_to_bignum_key o json_strnum_keys.
Proof. unfold json_strnum_to_bignum. reflexivity. Qed.

Lemma json_hooks_ok dp o v :
  json_hooks dp o = Ok v ->
  v = VAttribAccessDict
        (map_imap (date_parse_item dp) (json_strnum_to_bignum o)) ∅.
Proof.
  unfold json_hooks, json_date_parse.
  destruct (bool_decide _); [| discriminate].
  intros H. injection H as <-. reflexivity.
Qed.

(** ** Rate limiting *)

Lemma same_outside_refl st : same_outside st st.
Proof. repeat split. Qed.

Lemma same_outside_trans st1 st2 st3 :
  same_outside st1 st2 -> same_outside st2 st3 -> same_outside st1 st3.
Proof.
  unfold same_outside. intros (? & ? & ? & ? & ?) (? & ? & ? & ? & ?).
  repeat split; congruence.
Qed.

Lemma frames_ret {A} (a : A) : frames (mret a).
Proof. intros st. apply same_outside_refl. Qed.

Lemma frames_lift {A} (r : result A) : frames (lift r).
Proof. intros st. apply same_outside_refl. Qed.

Lemma frames_throw {A} c msg : frames (@throw A c msg).
Proof. intros st. apply same_outside_refl. Qed.

Lemma frames_time : frames time.
Proof. intros st. apply same_outside_refl. Qed.

Lemma frames_get_self : frames get_self.
Proof. intros st. apply same_outside_refl. Qed.

Lemma frames_bind {A B} (m : M A) (k : A -> M B) :
  frames m -> (forall a, frames (k a)) -> frames (m ≫= k).
Proof.
  intros Hm Hk st. unfold mbind, M_bind.
  specialize (Hm st). destruct (m st) as [[a | e] st']; simpl in *; [| exact Hm].
  eapply same_outside_trans; [exact Hm | apply Hk].
Qed.

Lemma frames_try_catch {A} (m : M A) c h :
  frames m -> (forall e, frames (h e)) -> frames (try_catch m c h).
Proof.
  intros Hm Hh st. unfold try_catch.
  specialize (Hm st). destruct (m st) as [[a | e] st']; simpl in *; [exact Hm |].
  destruct (issubclass _ _); [| exact Hm].
  eapply same_outside_trans; [exact Hm | apply Hh].
Qed.

Lemma frames_modify_self f :
  (forall c, ratelimit_method (f c) = ratelimit_method c) ->
  (forall c, api_base_url (f c) = api_base_url c) ->
  frames (modify_self f).
Proof. intros H1 H2 st. repeat split; simpl; auto. Qed.

Ltac frames :=
  repeat first
    [ apply frames_ret | apply frames_lift | apply frames_throw
    | apply frames_time | apply frames_get_self
    | apply frames_modify_self; reflexivity
    | apply frames_try_catch; [| intros ?]
    | apply frames_bind; [| intros ?]
    | match goal with |- frames (if ?b then _ else _) => destruct b end
    | match goal with |- frames (match ?x with _ => _ end) => destruct x end ].

Lemma parse_ratelimit_headers_frames dp r b :
  frames (parse_ratelimit_headers dp r b).
Proof. unfold parse_ratelimit_headers, parse_time. frames. Qed.

Lemma pace_other_method b st :
  ratelimit_method (self st) <> "pace" -> pace b st = (Ok tt, st).
Proof.
  intros H. unfold pace, mbind, M_bind, get_self.
  apply String.eqb_neq in H. rewrite H, andb_false_r. reflexivity.
Qed.



Lemma sleeps_request l method url hdrs params files :
  sleeps (l ++ [Request method url hdrs params files]) = sleeps l.
Proof. unfold sleeps. rewrite omap_app. simpl. apply app_nil_r. Qed.















(** ** Further properties of the request engine *)

(** One turn of the loop on an answer that is not [ok] and not a 429. *)
Lemma attempt_error dp phl m e params files hdrs b st x rest r st1 msg :
  server st = x :: rest -> outcome x = Answered r ->
  ok r = false -> status_code r <> 429 ->
  parse_ratelimit_headers dp r b
    (sent st x rest (Request m (api_base_url (self st) +:+ e) hdrs params files))
  = (Ok tt, st1) ->
  error_message dp r = Ok msg ->
  attempt dp phl (VStr m) (VStr e) params files hdrs b st
  = raise_api_error r msg st1.
Proof.
  intros Hsrv Hout Hok Hstatus Hhdr Hmsg.
  unfold attempt, mbind at 1 2, M_bind, get_self, try_catch, http_request.
  rewrite Hsrv, Hout.
  unfold mbind at 1, M_bind. unfold sent in Hhdr. rewrite Hhdr.
  rewrite Hok. cbn [negb].
  unfold mbind at 1, M_bind, lift. rewrite Hmsg.
  unfold mbind at 1, M_bind, get_self.
  apply Z.eqb_neq in Hstatus. rewrite Hstatus. reflexivity.
Qed.

Lemma request_loop_raise dp phl n method endpoint params files hdrs b st err st' :
  attempt dp phl method endpoint params files hdrs b st = (Raise err, st') ->
  request_loop dp phl n method endpoint params files hdrs b st = (Raise err, st').
Proof.
  intros H. destruct n; simpl; unfold mbind, M_bind; rewrite H; reflexivity.
Qed.

Lemma request_loop_done dp phl n method endpoint params files hdrs b st v st' :
  attempt dp phl method endpoint params files hdrs b st = (Ok (Done v), st') ->
  request_loop dp phl n method endpoint params files hdrs b st = (Ok v, st').
Proof.
  intros H. destruct n; simpl; unfold mbind, M_bind; rewrite H; reflexivity.
Qed.

(** X2. An answer that is neither [ok] nor a 429 ends the call, without a
    retry or a sleep, in [MastodonNotFoundError] for 404 (with the message
    "Endpoint not found." when the server gave none), in
    [MastodonUnauthorizedError] for 401 and in [MastodonAPIError] otherwise;
    the exception carries the status, the reason and the message. *)
Theorem api_error_classification dateutil_parse parse_header_links
    (m e : string) (params files : gmap string pyval)
    (hdrs : option (gmap string string)) (do_ratelimiting : bool)
    (st : state) (x : exchange) (rest : list exchange) (r : response)
    (st1 : state) (msg : pyval) (n : nat) :
  server st = x :: rest -> outcome x = Answered r ->
  ok r = false -> status_code r <> 429 ->
  parse_ratelimit_headers dateutil_parse r do_ratelimiting
    (sent st x rest (Request m (api_base_url (self st) +:+ e) hdrs params files))
  = (Ok tt, st1) ->
  error_message dateutil_parse r = Ok msg ->
  let cls :=
    if (status_code r =? 404)%Z then MastodonNotFoundError
    else if (status_code r =? 401)%Z then MastodonUnauthorizedError
    else MastodonAPIError in
  let text :=
    if (status_code r =? 404)%Z && negb (truthy msg)
    then VStr "Endpoint not found." else msg in
  request_loop dateutil_parse parse_header_links n (VStr m) (VStr e) params files
    hdrs do_ratelimiting st
  = (Raise (Exn cls [VStr "Mastodon API returned error"; VInt (status_code r);
                     VStr (reason r); text]), st1)
  /\ issubclass cls MastodonAPIError = true
  /\ sleeps (log st1) = sleeps (log st)
  /\ server st1 = rest.
Proof.
  intros Hsrv Hout Hok Hstatus Hhdr Hmsg cls text.
  assert (Hf := parse_ratelimit_headers_frames dateutil_parse r do_ratelimiting
                  (sent st x rest
                     (Request m (api_base_url (self st) +:+ e) hdrs params files))).
  rewrite Hhdr in Hf. destruct Hf as (Hlog & Hserver & _). simpl in Hlog, Hserver.
  split; [| split; [| split]].
  - apply request_loop_raise.
    rewrite (attempt_error _ _ _ _ _ _ _ _ _ _ _ _ _ _ Hsrv Hout Hok Hstatus Hhdr Hmsg).
    unfold raise_api_error, lift. subst cls text.
    destruct (status_code r =? 404)%Z; [destruct (truthy msg); reflexivity |].
    destruct (status_code r =? 401)%Z; reflexivity.
  - subst cls. destruct (status_code r =? 404)%Z; [reflexivity |].
    destruct (status_code r =? 401)%Z; reflexivity.
  - rewrite Hlog. apply sleeps_request.
  - exact Hserver.
Qed.

Lemma api_error_classification_witness :
  request_loop no_dates one_next_link 0 (VStr "GET") (VStr "/api/v1/nothing") ∅ ∅
    None true not_found_state
  = (Raise (Exn MastodonNotFoundError
              [VStr "Mastodon API returned error"; VInt 404; VStr "";
               VStr "Endpoint not found."]),
     sent not_found_state
       (answer 404 ∅ (Some (JObject [("error", JString "")]))) []
       (Request "GET" "https://mastodon.example/api/v1/nothing" None ∅ ∅)).
Proof.
  refine (proj1 (api_error_classification no_dates one_next_link
            "GET" "/api/v1/nothing" ∅ ∅ None true not_found_state
            (answer 404 ∅ (Some (JObject [("error", JString "")]))) []
            {| status_code := 404; reason := ""; headers := ∅;
               body := Some (JObject [("error", JString "")]) |}
            _ (VStr "") 0 eq_refl eq_refl eq_refl _ eq_refl _)).
  - discriminate.
  - vm_compute. reflexivity.
Defined.

(** One turn of the loop on an answer that is not [ok], when reading the
    error message raises. *)
Lemma attempt_error_message_raises dp phl m e params files hdrs b st x rest r st1 err :
  server st = x :: rest -> outcome x = Answered r -> ok r = false ->
  parse_ratelimit_headers dp r b
    (sent st x rest (Request m (api_base_url (self st) +:+ e) hdrs params files))
  = (Ok tt, st1) ->
  error_message dp r = Raise err ->
  attempt dp phl (VStr m) (VStr e) params files hdrs b st = (Raise err, st1).
Proof.
  intros Hsrv Hout Hok Hhdr Hmsg.
  unfold attempt, mbind at 1 2, M_bind, get_self, try_catch, http_request.
  rewrite Hsrv, Hout.
  unfold mbind at 1, M_bind. unfold sent in Hhdr. rewrite Hhdr.
  rewrite Hok. cbn [negb].
  unfold mbind at 1, M_bind, lift. rewrite Hmsg. reflexivity.
Qed.

(** X3. When an answer that is not [ok] has a JSON object without an
    [error] member for body, reading the message raises [KeyError], and that
    is what the call raises, whatever the status. *)
Theorem error_body_without_error_member dateutil_parse parse_header_links
    (m e : string) (params files : gmap string pyval)
    (hdrs : option (gmap string string)) (do_ratelimiting : bool)
    (st : state) (x : exchange) (rest : list exchange) (r : response)
    (st1 : state) (d attrs : gmap string pyval) (n : nat) :
  server st = x :: rest -> outcome x = Answered r -> ok r = false ->
  parse_ratelimit_headers dateutil_parse r do_ratelimiting
    (sent st x rest (Request m (api_base_url (self st) +:+ e) hdrs params files))
  = (Ok tt, st1) ->
  response_json dateutil_parse r = Ok (VAttribAccessDict d attrs) ->
  d !! "error" = None ->
  request_loop dateutil_parse parse_header_links n (VStr m) (VStr e) params files
    hdrs do_ratelimiting st
  = (raise KeyError "error", st1).
Proof.
  intros Hsrv Hout Hok Hhdr Hjson Hd.
  apply request_loop_raise.
  apply attempt_error_message_raises with (x := x) (rest := rest) (r := r); auto.
  unfold error_message. rewrite Hjson. simpl. rewrite Hd. reflexivity.
Qed.

Lemma error_body_without_error_member_witness :
  request_loop no_dates one_next_link 0 (VStr "GET") (VStr "/api/v1/timelines/home")
    ∅ ∅ None true bare_failure_state
  = (raise KeyError "error",
     sent bare_failure_state
       (answer 429 ∅ (Some (JObject [("message", JString "slow down")]))) []
       (Request "GET" "https://mastodon.example/api/v1/timelines/home" None ∅ ∅)).
Proof.
  refine (error_body_without_error_member no_dates one_next_link
            "GET" "/api/v1/timelines/home" ∅ ∅ None true bare_failure_state
            (answer 429 ∅ (Some (JObject [("message", JString "slow down")]))) []
            {| status_code := 429; reason := ""; headers := ∅;
               body := Some (JObject [("message", JString "slow down")]) |}
            _ {[ "message" := VStr "slow down" ]} ∅ 0
            eq_refl eq_refl eq_refl eq_refl _ _).
  - vm_compute. reflexivity.
  - vm_compute. reflexivity.
Defined.

(** X4. A request that fails in transport, or meets a network that is
    down, raises [MastodonNetworkError]; the client is left as it was and
    the request is on record once. *)
Theorem transport_failure_is_network_error dateutil_parse parse_header_links
    (m e : string) (params files : gmap string pyval)
    (hdrs : option (gmap string string)) (do_ratelimiting : bool)
    (st : state) (n : nat) :
  server st = [] \/ (exists x why, head (server st) = Some x /\ outcome x = Failed why) ->
  let out := request_loop dateutil_parse parse_header_links n (VStr m) (VStr e)
               params files hdrs do_ratelimiting st in
  fst out = raise MastodonNetworkError "Could not complete request"
  /\ self (snd out) = self st
  /\ server (snd out) = tail (server st)
  /\ log (snd out)
     = (log st ++ [Request m (api_base_url (self st) +:+ e) hdrs params files])%list.
Proof.
  intros Hcase out. subst out.
  assert (H : exists st',
    attempt dateutil_parse parse_header_links (VStr m) (VStr e) params files hdrs
      do_ratelimiting st
    = (raise MastodonNetworkError "Could not complete request", st')
    /\ self st' = self st /\ server st' = tail (server st)
    /\ log st'
       = (log st ++ [Request m (api_base_url (self st) +:+ e) hdrs params files])%list).
  { unfold attempt, mbind at 1 2, M_bind, get_self, try_catch, http_request.
    destruct Hcase as [Hsrv | (x & why & Hsrv & Hout)].
    - rewrite Hsrv. eexists. repeat split; reflexivity.
    - destruct (server st) as [| x' rest]; [discriminate |].
      injection Hsrv as ->. rewrite Hout. eexists. repeat split; reflexivity. }
  destruct H as (st' & H & H1 & H2 & H3).
  rewrite (request_loop_raise _ _ _ _ _ _ _ _ _ _ _ _ H). auto.
Qed.

Lemma transport_failure_is_network_error_witness :
  fst (request_loop no_dates one_next_link 0 (VStr "GET") (VStr "/api/v1/instance/")
         ∅ ∅ None true (example_state (example_client "wait" 300 0) 0 []))
  = raise MastodonNetworkError "Could not complete request".
Proof.
  apply (transport_failure_is_network_error no_dates one_next_link
           "GET" "/api/v1/instance/" ∅ ∅ None true
           (example_state (example_client "wait" 300 0) 0 []) 0).
  left. reflexivity.
Defined.

(** X5. A successful answer whose body cannot be decoded, the hook's own
    failure included, raises [MastodonAPIError]. *)
Theorem undecodable_success_is_api_error dateutil_parse parse_header_links
    (m e : string) (params files : gmap string pyval)
    (hdrs : option (gmap string string)) (do_ratelimiting : bool)
    (st : state) (x : exchange) (rest : list exchange) (r : response)
    (st1 : state) (err : exn) (n : nat) :
  server st = x :: rest -> outcome x = Answered r -> ok r = true ->
  parse_ratelimit_headers dateutil_parse r do_ratelimiting
    (sent st x rest (Request m (api_base_url (self st) +:+ e) hdrs params files))
  = (Ok tt, st1) ->
  response_json dateutil_parse r = Raise err ->
  issubclass (exn_cls err) Exception = true ->
  request_loop dateutil_parse parse_header_links n (VStr m) (VStr e) params files
    hdrs do_ratelimiting st
  = (raise MastodonAPIError "Could not parse response as JSON", st1).
Proof.
  intros Hsrv Hout Hok Hhdr Hjson Hsub.
  apply request_loop_raise.
  unfold attempt, mbind at 1 2, M_bind, get_self, try_catch, http_request.
  rewrite Hsrv, Hout.
  unfold mbind at 1, M_bind. unfold sent in Hhdr. rewrite Hhdr.
  rewrite Hok. cbn [negb].
  unfold mbind at 1, M_bind, lift. rewrite Hjson, Hsub. reflexivity.
Qed.

Lemma undecodable_success_is_api_error_witness :
  request_loop no_dates one_next_link 0 (VStr "GET") (VStr "/api/v1/instance/")
    ∅ ∅ None true undated_state
  = (raise MastodonAPIError "Could not parse response as JSON",
     sent undated_state
       (answer 200 ∅ (Some (JObject [("created_at", JString "yesterday")]))) []
       (Request "GET" "https://mastodon.example/api/v1/instance/" None ∅ ∅)).
Proof.
  refine (undecodable_success_is_api_error no_dates one_next_link
            "GET" "/api/v1/instance/" ∅ ∅ None true undated_state
            (answer 200 ∅ (Some (JObject [("created_at", JString "yesterday")]))) []
            {| status_code := 200; reason := ""; headers := ∅;
               body := Some (JObject [("created_at", JString "yesterday")]) |}
            _ (Exn MastodonAPIError [VStr "Encountered invalid date."]) 0
            eq_refl eq_refl eq_refl eq_refl _ eq_refl).
  vm_compute. reflexivity.
Defined.

(** ** The rate limiter's state and its sleeps *)

(** X6. Rate-limit headers that parse overwrite the remaining-count and
    the limit, set the last-call time to the clock, and set the reset time
    to the epoch of the reset header plus the difference between the clock
    and the epoch of the Date header, added in that order; without the
    remaining-count header, or with rate limiting off, nothing changes. *)
Theorem ratelimit_headers_update dateutil_parse (r : response) (st : state)
    (s_remaining s_limit s_reset s_date : string) (remaining limit : Z)
    (reset date : datetime) (do_ratelimiting : bool) :
  (headers r !! "X-RateLimit-Remaining" = Some s_remaining ->
   py_int s_remaining = Ok remaining ->
   headers r !! "X-RateLimit-Limit" = Some s_limit ->
   py_int s_limit = Ok limit ->
   headers r !! "X-RateLimit-Reset" = Some s_reset ->
   dateutil_parse s_reset = Some reset ->
   headers r !! "Date" = Some s_date ->
   dateutil_parse s_date = Some date ->
   let out := parse_ratelimit_headers dateutil_parse r true st in
   fst out = Ok tt
   /\ ratelimit_remaining (self (snd out)) = remaining
   /\ ratelimit_limit (self (snd out)) = limit
   /\ ratelimit_lastcall (self (snd out)) = now st
   /\ ratelimit_reset (self (snd out))
      = (datetime_to_epoch reset + (now st - datetime_to_epoch date))%Q)
  /\ (headers r !! "X-RateLimit-Remaining" = None \/ do_ratelimiting = false ->
      parse_ratelimit_headers dateutil_parse r do_ratelimiting st = (Ok tt, st)).
Proof.
  split.
  - intros H1 H2 H3 H4 H5 H6 H7 H8 out. subst out.
    unfold parse_ratelimit_headers.
    rewrite !bool_decide_eq_true_2 by (rewrite ?H1, ?H7; eauto).
    cbn [andb].
    cbv [parse_time header mbind M_bind lift modify_self get_self
         set_self try_catch time mret M_ret result_bind].
    repeat (progress (rewrite ?H1, ?H2, ?H3, ?H4, ?H5, ?H6, ?H7, ?H8;
                      cbv beta iota zeta)).
    cbn [fst snd self ratelimit_remaining ratelimit_limit ratelimit_lastcall
         ratelimit_reset set_ratelimit_remaining set_ratelimit_limit
         set_ratelimit_reset set_ratelimit_lastcall now].
    repeat split; reflexivity.
  - intros [H | ->]; unfold parse_ratelimit_headers.
    + rewrite bool_decide_eq_false_2 by (rewrite H; intros [? ?]; discriminate).
      reflexivity.
    + rewrite andb_false_r. reflexivity.
Qed.

Lemma ratelimit_headers_update_witness :
  let out := parse_ratelimit_headers seconds_since_epoch limited_response true
               (example_state (example_client "wait" 300 0) 1007 []) in
  fst out = Ok tt
  /\ ratelimit_remaining (self (snd out)) = 299
  /\ ratelimit_limit (self (snd out)) = 300
  /\ ratelimit_lastcall (self (snd out))
     = now (example_state (example_client "wait" 300 0) 1007 [])
  /\ ratelimit_reset (self (snd out))
     = (datetime_to_epoch (Datetime (inject_Z 1300) (Some 0%Q))
        + (now (example_state (example_client "wait" 300 0) 1007 [])
           - datetime_to_epoch (Datetime (inject_Z 1000) (Some 0%Q))))%Q.
Proof.
  apply (proj1 (ratelimit_headers_update seconds_since_epoch limited_response
                  (example_state (example_client "wait" 300 0) 1007 [])
                  "299" "300" "1300" "1000" 299 300
                  (Datetime (inject_Z 1300) (Some 0%Q))
                  (Datetime (inject_Z 1000) (Some 0%Q)) true));
    vm_compute; reflexivity.
Defined.

Lemma keeps_frames {A} (m : M A) : frames m -> keeps_bound m.
Proof.
  intros Hm st Hb. destruct (Hm st) as (Hlog & _).
  unfold bounded_sleeps. now rewrite Hlog.
Qed.

Lemma keeps_bind {A B} (m : M A) (k : A -> M B) :
  keeps_bound m -> (forall a, keeps_bound (k a)) -> keeps_bound (m ≫= k).
Proof.
  intros Hm Hk st Hb. unfold mbind, M_bind.
  specialize (Hm st Hb). destruct (m st) as [[a | e] st']; simpl in *; [| exact Hm].
  now apply Hk.
Qed.

Lemma keeps_try_catch {A} (m : M A) c h :
  keeps_bound m -> (forall e, keeps_bound (h e)) -> keeps_bound (try_catch m c h).
Proof.
  intros Hm Hh st Hb. unfold try_catch.
  specialize (Hm st Hb). destruct (m st) as [[a | e] st']; simpl in *; [exact Hm |].
  destruct (issubclass _ _); [| exact Hm]. now apply Hh.
Qed.

Lemma keeps_http_request method url hdrs params files :
  keeps_bound (http_request method url hdrs params files).
Proof.
  intros st Hb. unfold http_request, bounded_sleeps in *.
  destruct (server st) as [| x rest]; [| destruct (outcome x)]; simpl;
    now rewrite sleeps_request.
Qed.

Lemma keeps_sleep_py_min (a : Q) : keeps_bound (sleep (py_min a (5 * 60))).
Proof.
  intros st Hb. unfold sleep.
  destruct (Qltb (py_min a (5 * 60)) 0) eqn:E; [exact Hb |].
  unfold bounded_sleeps in *. simpl. unfold sleeps in *.
  rewrite omap_app. apply Forall_app. split; [exact Hb |].
  simpl. constructor; [| constructor]. split.
  - unfold Qltb in E. destruct (py_min a (5 * 60) ?= 0)%Q eqn:E'; try discriminate.
    + apply Qeq_alt in E'. rewrite E'. apply Qle_refl.
    + apply Qgt_alt in E'. now apply Qlt_le_weak.
  - unfold py_min, Qltb. destruct (5 * 60 ?= a)%Q eqn:E'.
    + apply Qeq_alt in E'. rewrite <- E'. discriminate.
    + discriminate.
    + apply Qgt_alt in E'. apply Qlt_le_weak in E'.
      eapply Qle_trans; [exact E' |]. discriminate.
Qed.

Ltac keeps :=
  repeat first
    [ apply keeps_sleep_py_min
    | apply keeps_http_request
    | apply keeps_frames;
      first [ apply frames_ret | apply frames_lift | apply frames_throw
            | apply frames_time | apply frames_get_self
            | apply parse_ratelimit_headers_frames ]
    | apply keeps_try_catch; [| intros ?]
    | apply keeps_bind; [| intros ?]
    | match goal with |- keeps_bound (if ?b then _ else _) => destruct b end
    | match goal with |- keeps_bound (match ?x with _ => _ end) => destruct x end ].

Lemma keeps_pace b : keeps_bound (pace b).
Proof. unfold pace. keeps. Qed.

Lemma keeps_raise_api_error {A} r msg : keeps_bound (@raise_api_error A r msg).
Proof.
  unfold raise_api_error.
  destruct (status_code r =? 404)%Z; [| destruct (status_code r =? 401)%Z];
    apply keeps_frames, frames_lift.
Qed.

Lemma keeps_attempt dp phl method endpoint params files hdrs b :
  keeps_bound (attempt dp phl method endpoint params files hdrs b).
Proof. unfold attempt. keeps; apply keeps_raise_api_error. Qed.

Lemma keeps_request_loop dp phl n method endpoint params files hdrs b :
  keeps_bound (request_loop dp phl n method endpoint params files hdrs b).
Proof.
  induction n as [| n IH]; simpl; apply keeps_bind;
    try apply keeps_attempt; intros [| v]; keeps. exact IH.
Qed.

(** X7. No sleep of the engine, under any policy, lasts longer than 300
    seconds or less than 0. *)
Theorem sleeps_never_exceed_five_minutes dateutil_parse parse_header_links
    (method endpoint : pyval) (params files : gmap string pyval)
    (do_ratelimiting : bool) (st : state) :
  bounded_sleeps st ->
  bounded_sleeps
    (snd (api_request dateutil_parse parse_header_links method endpoint params
            files do_ratelimiting st)).
Proof.
  revert st. change (keeps_bound
    (api_request dateutil_parse parse_header_links method endpoint params files
       do_ratelimiting)).
  unfold api_request. apply keeps_bind; [apply keeps_pace | intros _].
  apply keeps_bind; [apply keeps_frames, frames_get_self | intros c].
  apply keeps_bind; [| intros n; apply keeps_request_loop].
  intros st Hb. exact Hb.
Qed.

Lemma sleeps_never_exceed_five_minutes_witness :
  bounded_sleeps
    (snd (api_request no_dates one_next_link (VStr "GET")
            (VStr "/api/v1/timelines/home") ∅ ∅ true
            (throttled_state "wait" 5000 10))).
Proof.
  apply (sleeps_never_exceed_five_minutes no_dates one_next_link (VStr "GET")
           (VStr "/api/v1/timelines/home") ∅ ∅ true (throttled_state "wait" 5000 10)).
  constructor.
Defined.

(** ** Pagination, continued *)

(** X1. On a page that has records but whose last (first) record carries
    no cursor, [fetch_next] ([fetch_previous]) returns [None] and sends
    nothing. *)
Theorem page_without_cursor_ends_pagination dateutil_parse parse_header_links
    (x : pyval) (l : list pyval) (d attrs d' attrs' : gmap string pyval)
    (st : state) :
  (last (x :: l) = Some (VAttribAccessDict d attrs) ->
   d !! "_pagination_next" = None ->
   fetch_next dateutil_parse parse_header_links (VList (x :: l)) st = (Ok VNone, st))
  /\ (x = VAttribAccessDict d' attrs' ->
      d' !! "_pagination_prev" = None ->
      fetch_previous dateutil_parse parse_header_links (VList (x :: l)) st
      = (Ok VNone, st)).
Proof.
  split.
  - apply fetch_next_no_cursor.
  - apply fetch_previous_no_cursor.
Qed.

Lemma page_without_cursor_ends_pagination_witness :
  fetch_next no_dates one_next_link
    (VList [VAttribAccessDict {[ "id" := VInt 1 ]} ∅;
            VAttribAccessDict {[ "id" := VInt 2 ]} ∅]) quota_spent_state
  = (Ok VNone, quota_spent_state).
Proof.
  apply (proj1 (page_without_cursor_ends_pagination no_dates one_next_link
                  (VAttribAccessDict {[ "id" := VInt 1 ]} ∅)
                  [VAttribAccessDict {[ "id" := VInt 2 ]} ∅]
                  {[ "id" := VInt 2 ]} ∅ ∅ ∅ quota_spent_state));
    reflexivity.
Defined.

Lemma set_in_first_record x l d attrs key v :
  x = VAttribAccessDict d attrs ->
  set_in_first (x :: l) key v
  = Ok (VAttribAccessDict (<[key := v]> d) attrs :: l).
Proof. intros ->. reflexivity. Qed.




(** X9. A link without [rel], with another [rel], or whose URL has no
    [max_id=] leaves the page as it is; a next link whose [max_id=] is
    followed by no digit raises [ValueError], and a next link on an empty
    page raises [IndexError]. *)
Theorem link_without_cursor_parameter (method endpoint : pyval)
    (params : gmap string pyval) (page : list pyval)
    (url : gmap string string) (rel target group1 : string) (max_id : Z) :
  (url !! "rel" = None -> attach_link method endpoint params page url = Ok page)
  /\ (url !! "rel" = Some rel -> rel <> "next" -> rel <> "prev" ->
      attach_link method endpoint params page url = Ok page)
  /\ (url !! "rel" = Some "next" -> url !! "url" = Some target ->
      search_id "max_id" target = None ->
      attach_link method endpoint params page url = Ok page)
  /\ (url !! "rel" = Some "next" -> url !! "url" = Some target ->
      search_id "max_id" target = Some "" ->
      attach_link method endpoint params page url
      = raise ValueError "invalid literal for int() with base 10: ")
  /\ (url !! "rel" = Some "next" -> url !! "url" = Some target ->
      search_id "max_id" target = Some group1 -> py_int group1 = Ok max_id ->
      page = [] ->
      attach_link method endpoint params page url
      = raise IndexError "list index out of range").
Proof.
  unfold attach_link. repeat split.
  - intros ->. reflexivity.
  - intros -> H1 H2. apply String.eqb_neq in H1, H2. now rewrite H1, H2.
  - intros -> H1 H2. simpl String.eqb. unfold header. rewrite H1.
    cbn [mbind result_bind]. rewrite H2. reflexivity.
  - intros -> H1 H2. simpl String.eqb. unfold header. rewrite H1.
    cbn [mbind result_bind]. rewrite H2. reflexivity.
  - intros -> H1 H2 H3 ->. simpl String.eqb. unfold header. rewrite H1.
    cbn [mbind result_bind]. rewrite H2, H3. reflexivity.
Qed.

Lemma link_without_cursor_parameter_witness :
  attach_link (VStr "GET") (VStr "/api/v1/timelines/home") ∅
    [VAttribAccessDict ∅ ∅]
    {[ "url" := "https://mastodon.example/api/v1/timelines/home?max_id=&limit=2";
       "rel" := "next" ]}
  = raise ValueError "invalid literal for int() with base 10: ".
Proof.
  apply (proj1 (proj2 (proj2 (proj2
           (link_without_cursor_parameter (VStr "GET") (VStr "/api/v1/timelines/home")
              ∅ [VAttribAccessDict ∅ ∅]
              {[ "url" := "https://mastodon.example/api/v1/timelines/home?max_id=&limit=2";
                 "rel" := "next" ]}
              "next"
              "https://mastodon.example/api/v1/timelines/home?max_id=&limit=2"
              "" 0)))));
    vm_compute; reflexivity.
Defined.

(** ** Decoding, continued *)

Lemma strnum_to_bignum_key_other o key k :
  k <> key -> strnum_to_bignum_key o key !! k = o !! k.
Proof.
  intros Hk. unfold strnum_to_bignum_key.
  destruct (o !! key) as [[] |]; try reflexivity.
  destruct (py_int s); [| reflexivity]. now apply lookup_insert_ne.
Qed.

Lemma strnum_to_bignum_key_id o key :
  (forall v, o !! key = Some v -> not_numeral v) ->
  strnum_to_bignum_key o key = o.
Proof.
  intros H. unfold strnum_to_bignum_key.
  destruct (o !! key) as [[] |] eqn:E; try reflexivity.
  destruct (H _ eq_refl s eq_refl) as [e ->]. reflexivity.
Qed.

Lemma strnum_fold_other keys : forall o k,
  k ∉ keys -> foldl strnum_to_bignum_key o keys !! k = o !! k.
Proof.
  induction keys as [| key keys IH]; intros o k Hk; simpl; [reflexivity |].
  apply not_elem_of_cons in Hk as [Hne Hk].
  rewrite IH by assumption. now apply strnum_to_bignum_key_other.
Qed.

Lemma strnum_fold_id keys : forall o,
  (forall key v, key ∈ keys -> o !! key = Some v -> not_numeral v) ->
  foldl strnum_to_bignum_key o keys = o.
Proof.
  induction keys as [| key keys IH]; intros o H; simpl; [reflexivity |].
  rewrite strnum_to_bignum_key_id.
  - apply IH. intros k v Hk. apply H. now right.
  - intros v. apply H. now left.
Qed.

Lemma strnum_fold_dom keys : forall o k,
  is_Some (foldl strnum_to_bignum_key o keys !! k) <-> is_Some (o !! k).
Proof.
  induction keys as [| key keys IH]; intros o k; simpl; [reflexivity |].
  rewrite IH. unfold strnum_to_bignum_key.
  destruct (o !! key) as [[] |] eqn:E; try reflexivity.
  destruct (py_int s); [| reflexivity].
  destruct (decide (k = key)) as [-> |].
  - rewrite lookup_insert_eq, E. split; eauto.
  - now rewrite lookup_insert_ne.
Qed.

Lemma strnum_fold_stable keys : forall o k v,
  o !! k = Some v -> not_numeral v ->
  foldl strnum_to_bignum_key o keys !! k = Some v.
Proof.
  induction keys as [| key keys IH]; intros o k v Ho Hv; simpl; [exact Ho |].
  apply IH; [| exact Hv].
  destruct (decide (k = key)) as [-> |].
  - rewrite strnum_to_bignum_key_id; [exact Ho |].
    intros v'. rewrite Ho. now intros [= <-].
  - now rewrite strnum_to_bignum_key_other.
Qed.

Lemma strnum_fold_text keys : forall o k s,
  k ∈ keys -> o !! k = Some (VStr s) ->
  foldl strnum_to_bignum_key o keys !! k
  = Some (match py_int s with Ok n => VInt n | Raise _ => VStr s end).
Proof.
  induction keys as [| key keys IH]; intros o k s Hk Ho; simpl.
  - inversion Hk.
  - destruct (decide (k = key)) as [-> | Hne].
    + apply strnum_fold_stable.
      * unfold strnum_to_bignum_key. rewrite Ho.
        destruct (py_int s); [apply lookup_insert_eq | exact Ho].
      * intros s' Hs'. destruct (py_int s) as [n | e] eqn:E; [discriminate |].
        injection Hs' as <-. eauto.
    + apply elem_of_cons in Hk as [-> | Hk]; [congruence |].
      apply IH; [exact Hk |]. now rewrite strnum_to_bignum_key_other.
Qed.

(** X11. The widening of identifiers is idempotent, touches none but the
    seven identifier fields, keeps the set of keys, and turns the text of an
    identifier field into the integer [int()] reads, or leaves it when
    [int()] refuses it. *)
Theorem strnum_to_bignum_settles (o : gmap string pyval) :
  json_strnum_to_bignum (json_strnum_to_bignum o) = json_strnum_to_bignum o
  /\ (forall k, k ∉ json_strnum_keys -> json_strnum_to_bignum o !! k = o !! k)
  /\ (forall k, is_Some (json_strnum_to_bignum o !! k) <-> is_Some (o !! k))
  /\ (forall k s, k ∈ json_strnum_keys -> o !! k = Some (VStr s) ->
        json_strnum_to_bignum o !! k
        = Some (match py_int s with Ok n => VInt n | Raise _ => VStr s end)).
Proof.
  rewrite !json_strnum_to_bignum_fold.
  split; [| split; [| split]].
  - apply strnum_fold_id. intros key v Hkey. now apply strnum_fold_done.
  - intros k. apply strnum_fold_other.
  - intros k. apply strnum_fold_dom.
  - intros k s. apply strnum_fold_text.
Qed.

Lemma strnum_to_bignum_settles_witness :
  json_strnum_to_bignum {[ "id" := VStr "42"; "uri" := VStr "7" ]} !! "uri"
  = ({[ "id" := VStr "42"; "uri" := VStr "7" ]} : gmap string pyval) !! "uri"
  /\ json_strnum_to_bignum {[ "id" := VStr "42"; "uri" := VStr "7" ]} !! "id"
     = Some (match py_int "42" with Ok n => VInt n | Raise _ => VStr "42" end).
Proof.
  split.
  - apply (proj1 (proj2 (strnum_to_bignum_settles
                           {[ "id" := VStr "42"; "uri" := VStr "7" ]}))).
    vm_compute. intros H. repeat (apply elem_of_cons in H as [H | H]; [discriminate |]).
    inversion H.
  - apply (proj2 (proj2 (proj2 (strnum_to_bignum_settles
                                  {[ "id" := VStr "42"; "uri" := VStr "7" ]})))).
    + vm_compute. left.
    + vm_compute. reflexivity.
Defined.

(** ** Versions, continued *)

Lemma version_le_trans u v w : version_le u v -> version_le v w -> version_le u w.
Proof.
  destruct u as [[a b] c], v as [[a' b'] c'], w as [[a'' b''] c''].
  unfold version_le. lia.
Qed.

(** X16. A check that passes keeps passing when the version of the server
    grows, the mode being the same. *)
Theorem version_gate_monotone (created_ver last_changed_ver : string)
    (c c' : Mastodon) :
  version_check_mode c' = version_check_mode c ->
  version_le (server_version c) (server_version c') ->
  version_check created_ver last_changed_ver c = Ok tt ->
  version_check created_ver last_changed_ver c' = Ok tt.
Proof.
  intros Hmode Hle Hok.
  destruct (String.eqb_spec (version_check_mode c) "none") as [Hn | Hn].
  { unfold version_check. rewrite Hmode, Hn. reflexivity. }
  destruct (parse_version_string
              (if String.eqb (version_check_mode c) "created" then created_ver
               else last_changed_ver)) as [v | e] eqn:Hp.
  2:{ unfold version_check in Hok. apply String.eqb_neq in Hn.
      rewrite Hn, Hp in Hok. discriminate. }
  destruct (version_check_spec created_ver last_changed_ver c v Hn Hp)
    as [[Hv _] | [_ [msg Hmsg]]]; [| rewrite Hmsg in Hok; discriminate].
  assert (Hn' : version_check_mode c' <> "none") by congruence.
  assert (Hp' := Hp). rewrite <- Hmode in Hp'.
  destruct (version_check_spec created_ver last_changed_ver c' v Hn' Hp')
    as [[_ H] | [Hnle _]]; [exact H |].
  elim Hnle. eapply version_le_trans; eassumption.
Qed.

Lemma version_gate_monotone_witness :
  version_check "2.1.2" "2.1.2"
    (set_version 3 0 0 (example_client "wait" 300 0)) = Ok tt.
Proof.
  apply (version_gate_monotone "2.1.2" "2.1.2" (example_client "wait" 300 0)
           (set_version 3 0 0 (example_client "wait" 300 0)));
    [reflexivity | | reflexivity].
  vm_compute. left. reflexivity.
Defined.

(** X14. [verify_minimum_version] returns [True] exactly when the given
    version is lexicographically at most the version just retrieved. *)
Theorem verify_minimum_version_decides dateutil_parse parse_header_links
    (version_str found : string) (v : Z * Z * Z) (st st1 : state) :
  retrieve_mastodon_version dateutil_parse parse_header_links st = (Ok found, st1) ->
  parse_version_string version_str = Ok v ->
  exists b : bool,
    verify_minimum_version dateutil_parse parse_header_links version_str st
    = (Ok b, st1)
    /\ (b = true <-> version_le v (server_version (self st1))).
Proof.
  intros Hret Hp. unfold verify_minimum_version.
  unfold mbind at 1, M_bind. rewrite Hret.
  unfold mbind at 1, M_bind, lift. rewrite Hp.
  destruct v as [[a b] c]. unfold mbind, M_bind, get_self, mret, M_ret.
  unfold version_le, server_version.
  destruct (Z.gtb_spec a (mastodon_major (self st1))).
  { exists false. split; [reflexivity |]. split; [discriminate | lia]. }
  destruct (Z.eqb_spec a (mastodon_major (self st1))); cbn [andb].
  2:{ exists true. split; [reflexivity |]. split; [lia | reflexivity]. }
  destruct (Z.gtb_spec b (mastodon_minor (self st1))).
  { exists false. split; [reflexivity |]. split; [discriminate | lia]. }
  destruct (Z.eqb_spec b (mastodon_minor (self st1))); cbn [andb].
  2:{ exists true. split; [reflexivity |]. split; [lia | reflexivity]. }
  destruct (Z.gtb_spec c (mastodon_patch (self st1))).
  { exists false. split; [reflexivity |]. split; [discriminate | lia]. }
  exists true. split; [reflexivity |]. split; [lia | reflexivity].
Qed.

Lemma issubclass_Exception c : issubclass c Exception = true.
Proof.
  unfold issubclass. induction c; try reflexivity.
  simpl. rewrite IHc. reflexivity.
Qed.

(** X15. When the instance cannot be queried, the version of the server
    is taken to be 1.0.0. *)
Theorem retrieve_version_falls_back dateutil_parse parse_header_links
    (st : state) (e : exn) :
  fst (instance_internal dateutil_parse parse_header_links st) = Raise e ->
  let out := retrieve_mastodon_version dateutil_parse parse_header_links st in
  fst out = Ok "1.0.0"
  /\ server_version (self (snd out)) = (1, 0, 0)
  /\ log (snd out)
     = log (snd (instance_internal dateutil_parse parse_header_links st)).
Proof.
  intros He out.
  destruct (instance_internal dateutil_parse parse_header_links st)
    as [r st1] eqn:Hi.
  simpl in He. subst r.
  assert (H : out = (Ok "1.0.0",
                     {| self := set_version 1 0 0 (self st1); now := now st1;
                        server := server st1; log := log st1 |})).
  { subst out. unfold retrieve_mastodon_version.
    unfold mbind at 1, M_bind, try_catch. unfold mbind at 1, M_bind.
    rewrite Hi, issubclass_Exception. reflexivity. }
  rewrite H. split; [reflexivity | split; reflexivity].
Qed.

Lemma retrieve_version_falls_back_witness :
  fst (retrieve_mastodon_version no_dates one_next_link
         (example_state (example_client "wait" 300 0) 0 []))
  = Ok "1.0.0".
Proof.
  apply (retrieve_version_falls_back no_dates one_next_link
           (example_state (example_client "wait" 300 0) 0 [])
           (Exn MastodonNetworkError [VStr "Could not complete request"])).
  vm_compute. reflexivity.
Defined.

Lemma verify_minimum_version_decides_witness :
  exists b : bool,
    verify_minimum_version no_dates one_next_link "1.4.0"
      (example_state (example_client "wait" 300 0) 0 [])
    = (Ok b, snd (retrieve_mastodon_version no_dates one_next_link
                    (example_state (example_client "wait" 300 0) 0 [])))
    /\ (b = true
        <-> version_le (1, 4, 0)
              (server_version
                 (self (snd (retrieve_mastodon_version no_dates one_next_link
                               (example_state (example_client "wait" 300 0) 0 [])))))).
Proof.
  apply (verify_minimum_version_decides no_dates one_next_link "1.4.0" "1.0.0"
           (1, 4, 0) (example_state (example_client "wait" 300 0) 0 [])).
  - vm_compute. reflexivity.
  - reflexivity.
Defined.

(** ** URLs *)

Lemma rstrip_char_last c s : last_char (rstrip_char c s) <> Some c.
Proof.
  induction s as [| a s IH]; simpl; [discriminate |].
  destruct (rstrip_char c s) as [| b r] eqn:E.
  - destruct (Ascii.eqb_spec a c); simpl; congruence.
  - simpl. simpl in IH. exact IH.
Qed.

Lemma rstrip_char_id c s : last_char s <> Some c -> rstrip_char c s = s.
Proof.
  induction s as [| a s IH]; simpl; [reflexivity |].
  destruct s as [| b s'].
  - intros H. simpl. destruct (Ascii.eqb_spec a c); congruence.
  - intros H. rewrite (IH H). reflexivity.
Qed.

(** X13. [__protocolize] never returns a URL that ends in a slash; a URL
    that has a scheme and no trailing slash is returned as it is. *)
Theorem protocolize_result (base_url : string) :
  last_char (protocolize base_url) <> Some "/"%char
  /\ (startswith "http://" base_url || startswith "https://" base_url = true ->
      last_char base_url <> Some "/"%char ->
      protocolize base_url = base_url)
  /\ (startswith "http://" base_url || startswith "https://" base_url = false ->
      protocolize base_url = rstrip_char "/" ("https://" +:+ base_url)).
Proof.
  unfold protocolize. split; [apply rstrip_char_last |]. split.
  - intros H Hl. rewrite <- negb_orb, H. simpl. now apply rstrip_char_id.
  - intros H. rewrite <- negb_orb, H. reflexivity.
Qed.

Lemma protocolize_result_witness :
  protocolize "https://mastodon.example" = "https://mastodon.example"
  /\ protocolize "mastodon.example//"
     = rstrip_char "/" ("https://" +:+ "mastodon.example//").
Proof.
  split.
  - apply (proj1 (proj2 (protocolize_result "https://mastodon.example")));
      [reflexivity | discriminate].
  - apply (proj2 (proj2 (protocolize_result "mastodon.example//"))). reflexivity.
Defined.

(** ** Streaming, continued *)

Lemma stream_open_answered (url endpoint : string) params tok st a x rest r :
  last_char url = Some a -> a <> "/"%char ->
  access_token (self st) = Some tok ->
  server st = x :: rest -> outcome x = Answered r ->
  stream_open url endpoint params st
  = (if (status_code r =? 200)%Z then Ok r
     else raise MastodonNetworkError "Could not connect to streaming server",
     sent st x rest
       (Request "GET" (url +:+ endpoint)
          (Some {[ "Authorization" := "Bearer " +:+ tok ]}) params ∅)).
Proof.
  intros Hlast Ha Htok Hsrv Hout. unfold stream_open.
  unfold mbind, M_bind, lift, get_self. rewrite Hlast.
  apply Ascii.eqb_neq in Ha. rewrite Ha, Htok.
  unfold http_request. rewrite Hsrv, Hout.
  destruct (status_code r =? 200)%Z; reflexivity.
Qed.

(** X10. When the instance advertises no streaming URL, or the REST base
    itself, the session sends its GET to the REST base followed by the
    endpoint; an answer other than 200 raises [MastodonNetworkError]. *)
Theorem stream_connects_to_rest_base dateutil_parse parse_header_links
    (endpoint : string) (params : gmap string pyval) (st : state)
    (inst urls : pyval) (tok : string) (a : ascii)
    (x : exchange) (rest : list exchange) (r : response) :
  let resolved := instance dateutil_parse parse_header_links st in
  let st1 := snd resolved in
  fst resolved = Ok inst ->
  getitem inst "urls" = Ok urls ->
  contains "streaming_api" urls = Ok false
  \/ (contains "streaming_api" urls = Ok true
      /\ getitem urls "streaming_api" = Ok (VStr (api_base_url (self st1)))) ->
  last_char (api_base_url (self st1)) = Some a -> a <> "/"%char ->
  access_token (self st1) = Some tok ->
  server st1 = x :: rest -> outcome x = Answered r ->
  stream dateutil_parse parse_header_links endpoint params st
  = (if (status_code r =? 200)%Z then Ok r
     else raise MastodonNetworkError "Could not connect to streaming server",
     sent st1 x rest
       (Request "GET" (api_base_url (self st1) +:+ endpoint)
          (Some {[ "Authorization" := "Bearer " +:+ tok ]}) params ∅)).
Proof.
  intros resolved st1 Hinst Hurls Hcase Hlast Ha Htok Hsrv Hout.
  unfold stream.
  assert (Hurl : forall k : string -> M response,
            (stream_url dateutil_parse parse_header_links ≫= k) st
            = k (api_base_url (self st1)) st1).
  { intros k. unfold stream_url, mbind at 1 2, M_bind.
    fold resolved. destruct resolved as [res st'] eqn:E.
    simpl in Hinst, st1. subst res st1.
    unfold mbind, M_bind, lift, get_self. rewrite Hurls.
    destruct Hcase as [-> | [-> Hget]]; [reflexivity |].
    rewrite Hget. simpl. rewrite String.eqb_refl. reflexivity. }
  rewrite Hurl. now apply stream_open_answered with (a := a).
Qed.

Lemma stream_connects_to_rest_base_witness :
  stream no_dates one_next_link "/api/v1/streaming/public" ∅ plain_instance_state
  = (if (status_code {| status_code := 503; reason := ""; headers := ∅;
                        body := None |} =? 200)%Z
     then Ok {| status_code := 503; reason := ""; headers := ∅; body := None |}
     else raise MastodonNetworkError "Could not connect to streaming server",
     sent (snd (instance no_dates one_next_link plain_instance_state))
       (answer 503 ∅ None) []
       (Request "GET"
          (api_base_url (self (snd (instance no_dates one_next_link
                                      plain_instance_state)))
           +:+ "/api/v1/streaming/public")
          (Some {[ "Authorization" := "Bearer " +:+ "token" ]}) ∅ ∅)).
Proof.
  apply (stream_connects_to_rest_base no_dates one_next_link
           "/api/v1/streaming/public" ∅ plain_instance_state
           (VAttribAccessDict {[ "urls" := VAttribAccessDict ∅ ∅ ]} ∅)
           (VAttribAccessDict ∅ ∅) "token" "e"%char).
  - vm_compute. reflexivity.
  - vm_compute. reflexivity.
  - left. vm_compute. reflexivity.
  - vm_compute. reflexivity.
  - discriminate.
  - vm_compute. reflexivity.
  - vm_compute. reflexivity.
  - reflexivity.
Defined.

(** ** Construction, continued *)

(** X12. With a version that parses, known modes, a client id that is not
    a file and a secret, the constructor succeeds without sending anything;
    the client starts with a quota of 300 out of 300 and a reset time of
    now. *)
Theorem init_with_given_version dateutil_parse parse_header_links
    (fs : gmap string (list string)) (id secret : string)
    (token : option string) (url method : string) (pacefactor : Q)
    (version mode : string) (major minor patch : Z) (st : state) :
  parse_version_string version = Ok (major, minor, patch) ->
  mode ∈ ["created"; "changed"; "none"] ->
  method ∈ ["throw"; "wait"; "pace"] ->
  fs !! id = None ->
  (forall t, token = Some t -> fs !! t = None) ->
  init dateutil_parse parse_header_links fs id (Some secret) token url method
    pacefactor (Some version) mode st
  = (Ok tt,
     {| self := {| api_base_url := protocolize url; client_id := id;
                   client_secret := Some secret; access_token := token;
                   ratelimit_method := method; ratelimit_limit := 300;
                   ratelimit_reset := now st; ratelimit_remaining := 300;
                   ratelimit_lastcall := now st;
                   ratelimit_pacefactor := pacefactor;
                   mastodon_major := major; mastodon_minor := minor;
                   mastodon_patch := patch; version_check_mode := mode |};
        now := now st; server := server st; log := log st |}).
Proof.
  intros Hp Hmode Hmethod Hid Htok. unfold init.
  cbv [mbind M_bind time set_self try_catch lift modify_self get_self throw
       mret M_ret].
  rewrite Hp. cbv beta iota zeta.
  rewrite !bool_decide_eq_true_2 by assumption. cbv beta iota zeta. cbn [negb].
  cbv beta iota zeta. cbn [self]. rewrite Hid. cbv beta iota zeta.
  destruct token as [t |]; [rewrite (Htok t eq_refl) |]; reflexivity.
Qed.

Lemma init_with_given_version_witness :
  fst (init no_dates one_next_link ∅ "id" (Some "secret") None "mastodon.example/"
         "pace" (11 # 10) (Some "2.4.3rc1") "changed" quota_spent_state)
  = Ok tt.
Proof.
  rewrite (init_with_given_version no_dates one_next_link ∅ "id" "secret" None
             "mastodon.example/" "pace" (11 # 10) "2.4.3rc1" "changed" 2 4 3
             quota_spent_state eq_refl).
  - reflexivity.
  - right. left.
  - right. right. left.
  - reflexivity.
  - discriminate.
Defined.

(** X18. The constructor rejects an unknown version check mode, then an
    unknown rate-limit policy, then a client id given without a secret,
    each with [MastodonIllegalArgumentError], and sends nothing. *)
Theorem init_rejects_bad_arguments dateutil_parse parse_header_links
    (fs : gmap string (list string)) (id : string)
    (secret token : option string) (url method : string) (pacefactor : Q)
    (version mode : string) (v : Z * Z * Z) (st : state) :
  parse_version_string version = Ok v ->
  let out := init dateutil_parse parse_header_links fs id secret token url method
               pacefactor (Some version) mode st in
  (mode ∉ ["created"; "changed"; "none"] ->
     fst out = raise MastodonIllegalArgumentError "Invalid version check method.")
  /\ (mode ∈ ["created"; "changed"; "none"] -> method ∉ ["throw"; "wait"; "pace"] ->
      fst out = raise MastodonIllegalArgumentError "Invalid ratelimit method.")
  /\ (mode ∈ ["created"; "changed"; "none"] -> method ∈ ["throw"; "wait"; "pace"] ->
      fs !! id = None -> secret = None ->
      fst out = raise MastodonIllegalArgumentError
                  "Specified client id directly, but did not supply secret")
  /\ log (snd out) = log st.
Proof.
  intros Hp out. subst out. destruct v as [[a b] c].
  unfold init.
  cbv [mbind M_bind time set_self try_catch lift modify_self get_self throw
       mret M_ret].
  rewrite Hp. cbv beta iota zeta.
  destruct (bool_decide_reflect (mode ∈ ["created"; "changed"; "none"])) as [Hm | Hm];
    cbn [negb]; cbv beta iota zeta.
  2:{ repeat split; try reflexivity; intros; contradiction. }
  destruct (bool_decide_reflect (method ∈ ["throw"; "wait"; "pace"])) as [Hr | Hr];
    cbn [negb]; cbv beta iota zeta.
  2:{ repeat split; try reflexivity; intros; contradiction. }
  cbn [self].
  destruct (fs !! id) as [secret_file |] eqn:Hid; cbv beta iota zeta.
  - split; [intros; contradiction |]. split; [intros; contradiction |].
    split; [intros _ _ H; discriminate H |].
    destruct token as [t |]; [destruct (fs !! t) |]; reflexivity.
  - destruct secret as [s |]; cbv beta iota zeta.
    + split; [intros; contradiction |]. split; [intros; contradiction |].
      split; [intros _ _ _ H; discriminate H |].
      destruct token as [t |]; [destruct (fs !! t) |]; reflexivity.
    + repeat split; try reflexivity; intros; contradiction.
Qed.

Lemma init_rejects_bad_arguments_witness :
  fst (init no_dates one_next_link ∅ "id" None None "mastodon.example"
         "wait" (11 # 10) (Some "2.2.0") "created" quota_spent_state)
  = raise MastodonIllegalArgumentError
      "Specified client id directly, but did not supply secret".
Proof.
  apply (proj1 (proj2 (proj2 (init_rejects_bad_arguments no_dates one_next_link ∅
           "id" None None "mastodon.example" "wait" (11 # 10) "2.2.0" "created"
           (2, 2, 0) quota_spent_state eq_refl)))).
  - left.
  - right. left.
  - reflexivity.
  - reflexivity.
Defined.

(** ** Named parameters

[__generate_params] walks the keys of a dict in their order while it
    changes the dict, so here a dict is the list of its items in insertion
    order, with no key twice. *)

Example generate_params_ex :
  generate_params
    [("self", VNone); ("id", VInt 3); ("media_ids", VList [VInt 1; VInt 2]);
     ("spoiler_text", VNone); ("visibility", VStr "public")] ["id"]
  = Ok [("visibility", VStr "public"); ("media_ids[]", VList [VInt 1; VInt 2])].
Proof. reflexivity. Qed.

Lemma dict_get_filter d key k :
  dict_get (List.filter (fun kv => negb (String.eqb (fst kv) key)) d) k
  = if String.eqb k key then None else dict_get d k.
Proof.
  induction d as [| [k0 v] d IH]; simpl.
  - now destruct (String.eqb k key).
  - destruct (String.eqb_spec k0 key) as [E1 | E1]; simpl; rewrite ?IH;
      destruct (String.eqb_spec k key) as [E2 | E2]; try reflexivity;
      destruct (String.eqb_spec k0 k) as [E3 | E3]; try reflexivity; congruence.
Qed.

Lemma dict_get_set d key v k :
  dict_get (dict_set d key v) k = if String.eqb k key then Some v else dict_get d k.
Proof.
  induction d as [| [k0 x] d IH]; simpl.
  - rewrite String.eqb_sym. reflexivity.
  - destruct (String.eqb_spec k0 key) as [E1 | E1]; simpl; rewrite ?IH;
      destruct (String.eqb_spec k key) as [E2 | E2];
      destruct (String.eqb_spec k0 k) as [E3 | E3]; try reflexivity; congruence.
Qed.

Lemma dict_get_keys d k : is_Some (dict_get d k) <-> k ∈ dict_keys d.
Proof.
  induction d as [| [k0 v] d IH]; simpl.
  - split; [intros [? ?]; discriminate | intros H; inversion H].
  - rewrite elem_of_cons. destruct (String.eqb_spec k0 k) as [-> | Hne].
    + split; eauto.
    + rewrite IH. split; [auto | intros [-> | H]; [congruence | exact H]].
Qed.

Lemma dict_del_ok d key v :
  dict_get d key = Some v ->
  exists d', dict_del d key = Ok d'
    /\ forall k, dict_get d' k = if String.eqb k key then None else dict_get d k.
Proof.
  intros H. unfold dict_del. rewrite H. eexists. split; [reflexivity |].
  apply dict_get_filter.
Qed.

Lemma length_append s t :
  String.length (s +:+ t) = (String.length s + String.length t)%nat.
Proof.
  induction s as [| a s IH]; [reflexivity |].
  rewrite append_cons. simpl. now rewrite IH.
Qed.

Lemma append_brackets_neq key : key +:+ "[]" <> key.
Proof.
  intros H. apply (f_equal String.length) in H.
  rewrite length_append in H. simpl in H. lia.
Qed.

Lemma drop_unwanted_found exclude p key v :
  dict_get p key = Some v ->
  drop_unwanted exclude p key
  = if is_none v || bool_decide (key ∈ exclude) then dict_del p key else Ok p.
Proof. intros H. unfold drop_unwanted, dict_getitem. now rewrite H. Qed.

Lemma rename_list_found p key v :
  dict_get p key = Some v ->
  rename_list p key
  = match v with
    | VList _ => dict_del (dict_set p (key +:+ "[]") v) key
    | _ => Ok p
    end.
Proof. intros H. unfold rename_list, dict_getitem. now rewrite H. Qed.

(** The first loop keeps the items that are wanted and nothing else. *)
Lemma drop_unwanted_loop exclude ks : forall p,
  NoDup ks -> (forall k, k ∈ ks -> is_Some (dict_get p k)) ->
  exists p', foldM (drop_unwanted exclude) p ks = Ok p'
    /\ forall k, dict_get p' k
         = if bool_decide (k ∈ ks)
              && (match dict_get p k with Some v => is_none v | None => false end
                  || bool_decide (k ∈ exclude))
           then None else dict_get p k.
Proof.
  induction ks as [| key ks IH]; intros p Hnd Hin; cbn [foldM].
  - exists p. split; [reflexivity |]. intros k.
    rewrite bool_decide_eq_false_2 by (intros H; inversion H). reflexivity.
  - apply NoDup_cons in Hnd as [Hkey Hnd].
    destruct (Hin key) as [v Hv]; [now left |].
    rewrite (drop_unwanted_found _ _ _ _ Hv).
    destruct (is_none v || bool_decide (key ∈ exclude)) eqn:Hbad.
    + destruct (dict_del_ok p key v Hv) as (p1 & -> & Hp1). cbn [mbind result_bind].
      destruct (IH p1 Hnd) as (p' & Hfold & Hp').
      { intros k Hk. rewrite Hp1.
        destruct (String.eqb_spec k key) as [-> |]; [contradiction |].
        apply Hin. now right. }
      exists p'. split; [exact Hfold |]. intros k. rewrite Hp', Hp1.
      destruct (String.eqb_spec k key) as [-> | Hne].
      * rewrite (bool_decide_eq_true_2 (key ∈ key :: ks)) by now left.
        rewrite Hv, Hbad. simpl. now destruct (_ && _).
      * assert (Hiff : bool_decide (k ∈ key :: ks) = bool_decide (k ∈ ks)).
        { apply bool_decide_ext. rewrite elem_of_cons. tauto. }
        rewrite Hiff. reflexivity.
    + cbn [mbind result_bind]. destruct (IH p Hnd) as (p' & Hfold & Hp').
      { intros k Hk. apply Hin. now right. }
      exists p'. split; [exact Hfold |]. intros k. rewrite Hp'.
      destruct (String.eqb_spec k key) as [-> | Hne].
      * rewrite (bool_decide_eq_false_2 (key ∈ ks)) by assumption.
        rewrite Hv, Hbad. simpl. now rewrite andb_false_r.
      * assert (Hiff : bool_decide (k ∈ key :: ks) = bool_decide (k ∈ ks)).
        { apply bool_decide_ext. rewrite elem_of_cons. tauto. }
        rewrite Hiff. reflexivity.
Qed.

(** The second loop moves every list under a bracketed key and leaves the
    other items where they are. *)
Lemma rename_list_loop ks : forall p,
  NoDup ks -> (forall k, k ∈ ks -> is_Some (dict_get p k)) ->
  exists p', foldM rename_list p ks = Ok p'
    /\ (forall k l, dict_get p' k = Some (VList l) ->
          bracketed k \/ ((k ∉ ks) /\ dict_get p k = Some (VList l)))
    /\ (forall k v, dict_get p' k = Some v -> exists k0, dict_get p k0 = Some v)
    /\ (forall k v, ~ bracketed k -> dict_get p k = Some v ->
          (forall l, v <> VList l) -> dict_get p' k = Some v).
Proof.
  induction ks as [| key ks IH]; intros p Hnd Hin; cbn [foldM].
  - exists p. split; [reflexivity |]. split; [| split].
    + intros k l H. right. split; [intros H'; inversion H' | exact H].
    + eauto.
    + auto.
  - apply NoDup_cons in Hnd as [Hkey Hnd].
    destruct (Hin key) as [v Hv]; [now left |].
    rewrite (rename_list_found _ _ _ Hv).
    assert (Hskip : (forall l, v <> VList l) ->
      exists p', foldM rename_list p ks = Ok p'
        /\ (forall k l, dict_get p' k = Some (VList l) ->
              bracketed k \/ ((k ∉ key :: ks) /\ dict_get p k = Some (VList l)))
        /\ (forall k v, dict_get p' k = Some v -> exists k0, dict_get p k0 = Some v)
        /\ (forall k v, ~ bracketed k -> dict_get p k = Some v ->
              (forall l, v <> VList l) -> dict_get p' k = Some v)).
    { intros Hv'. destruct (IH p Hnd) as (p' & Hfold & H1 & H2 & H3).
      { intros k Hk. apply Hin. now right. }
      exists p'. split; [exact Hfold |]. split; [| split; assumption].
      intros k l Hk. destruct (H1 k l Hk) as [Hb | [Hn Hp]]; [now left |].
      right. split; [| exact Hp]. rewrite not_elem_of_cons. split; [| exact Hn].
      intros ->. rewrite Hv in Hp. injection Hp as ->. now apply (Hv' l). }
    destruct v; try (apply Hskip; discriminate).
    set (p0 := dict_set p (key +:+ "[]") (VList l)).
    assert (Hp0 : dict_get p0 key = Some (VList l)).
    { subst p0. rewrite dict_get_set.
      destruct (String.eqb_spec key (key +:+ "[]")) as [E |]; [| exact Hv].
      symmetry in E. now apply append_brackets_neq in E. }
    destruct (dict_del_ok p0 key _ Hp0) as (p1 & -> & Hp1).
    assert (Hview : forall k, dict_get p1 k
              = if String.eqb k key then None
                else if String.eqb k (key +:+ "[]") then Some (VList l)
                else dict_get p k).
    { intros k. rewrite Hp1. subst p0. now rewrite dict_get_set. }
    destruct (IH p1 Hnd) as (p' & Hfold & H1 & H2 & H3).
    { intros k Hk. rewrite Hview.
      destruct (String.eqb_spec k key) as [-> |]; [contradiction |].
      destruct (String.eqb k (key +:+ "[]")); [eauto |]. apply Hin. now right. }
    exists p'. split; [exact Hfold |]. split; [| split].
    + intros k l' Hk. destruct (H1 k l' Hk) as [Hb | [Hn Hp]]; [now left |].
      rewrite Hview in Hp.
      destruct (String.eqb_spec k key) as [-> |]; [discriminate |].
      destruct (String.eqb_spec k (key +:+ "[]")) as [-> |].
      * left. now exists key.
      * right. split; [| exact Hp]. rewrite not_elem_of_cons. auto.
    + intros k v Hk. destruct (H2 k v Hk) as [k0 Hk0]. rewrite Hview in Hk0.
      destruct (String.eqb k0 key); [discriminate |].
      destruct (String.eqb k0 (key +:+ "[]")); [injection Hk0 as <-|]; eauto.
    + intros k v Hb Hk Hv'. apply H3; try assumption. rewrite Hview.
      destruct (String.eqb_spec k key) as [-> |].
      { rewrite Hv in Hk. injection Hk as <-. now elim (Hv' l). }
      destruct (String.eqb_spec k (key +:+ "[]")) as [-> |]; [| exact Hk].
      elim Hb. now exists key.
Qed.

Lemma NoDup_keys_filter (d : pydict) f :
  NoDup (dict_keys d) -> NoDup (dict_keys (List.filter f d)).
Proof.
  unfold dict_keys. induction d as [| [k v] d IH]; simpl; [auto |].
  intros [Hk Hd]%NoDup_cons. destruct (f (k, v)); simpl; [| auto].
  apply NoDup_cons. split; [| auto].
  intros Hin. apply Hk. apply list_elem_of_fmap in Hin as ([k' v'] & -> & Hin).
  apply list_elem_of_fmap. exists (k', v'). split; [reflexivity |].
  apply list_elem_of_In. apply list_elem_of_In in Hin.
  now apply List.filter_In in Hin as [Hin _].
Qed.

Lemma foldM_drop_keys exclude ks : forall p p',
  NoDup (dict_keys p) -> foldM (drop_unwanted exclude) p ks = Ok p' ->
  NoDup (dict_keys p').
Proof.
  induction ks as [| key ks IH]; intros p p' Hnd; cbn [foldM].
  - now intros [= <-].
  - destruct (dict_get p key) as [v |] eqn:Hv.
    + rewrite (drop_unwanted_found _ _ _ _ Hv). unfold dict_del. rewrite Hv.
      destruct (_ || _); cbn [mbind result_bind]; apply IH; [| exact Hnd].
      now apply NoDup_keys_filter.
    + unfold drop_unwanted, dict_getitem. rewrite Hv. discriminate.
Qed.

(** X17. [__generate_params] raises [KeyError] without a [self] entry;
    otherwise it returns a dict with no [None] value, whose lists all sit
    under keys that end in "[]", whose values all come from the input, and
    in which every plain entry that is wanted is still there. *)
Theorem generate_params_normalises (params : pydict) (exclude : list string) :
  NoDup (dict_keys params) ->
  (dict_get params "self" = None ->
     generate_params params exclude = raise KeyError "self")
  /\ (is_Some (dict_get params "self") ->
      exists out,
        generate_params params exclude = Ok out
        /\ (forall k, dict_get out k <> Some VNone)
        /\ (forall k l, dict_get out k = Some (VList l) -> bracketed k)
        /\ (forall k v, dict_get out k = Some v ->
              exists k0, dict_get params k0 = Some v)
        /\ (forall k v, dict_get params k = Some v ->
              k <> "self" -> k ∉ exclude -> v <> VNone ->
              (forall l, v <> VList l) -> ~ bracketed k ->
              dict_get out k = Some v)).
Proof.
  intros Hnd. unfold generate_params. split.
  - intros H. unfold dict_del. now rewrite H.
  - intros [s Hs].
    destruct (dict_del_ok params "self" s Hs) as (p0 & Hdel & Hp0).
    rewrite Hdel. cbn [mbind result_bind].
    assert (Hnd0 : NoDup (dict_keys p0)).
    { unfold dict_del in Hdel. rewrite Hs in Hdel. injection Hdel as <-.
      now apply NoDup_keys_filter. }
    destruct (drop_unwanted_loop exclude (dict_keys p0) p0 Hnd0)
      as (p1 & Hfold1 & Hp1); [intros k; apply dict_get_keys |].
    rewrite Hfold1. cbn [mbind result_bind].
    assert (Hnd1 := foldM_drop_keys exclude _ _ _ Hnd0 Hfold1).
    destruct (rename_list_loop (dict_keys p1) p1 Hnd1)
      as (out & Hfold2 & H1 & H2 & H3); [intros k; apply dict_get_keys |].
    exists out. split; [exact Hfold2 |].
    assert (Hkept : forall k v, dict_get p1 k = Some v ->
              dict_get p0 k = Some v /\ is_none v = false /\ k ∉ exclude).
    { intros k v Hk. rewrite Hp1 in Hk.
      destruct (bool_decide_reflect (k ∈ dict_keys p0)) as [Hin | Hin].
      - apply dict_get_keys in Hin as [v0 Hv0]. rewrite Hv0 in Hk. cbn [andb] in Hk.
        destruct (is_none v0) eqn:Hn; [discriminate |].
        destruct (bool_decide_reflect (k ∈ exclude)); [discriminate |].
        cbn [orb] in Hk. injection Hk as <-. auto.
      - cbn [andb] in Hk. elim Hin. apply dict_get_keys. eauto. }
    split; [| split; [| split]].
    + intros k Hk. destruct (H2 k _ Hk) as [k0 Hk0].
      apply Hkept in Hk0 as (_ & Hn & _). discriminate.
    + intros k l Hk. destruct (H1 k l Hk) as [Hb | [Hn Hp]]; [exact Hb |].
      elim Hn. apply dict_get_keys. eauto.
    + intros k v Hk. destruct (H2 k v Hk) as [k0 Hk0].
      apply Hkept in Hk0 as (Hk0 & _). rewrite Hp0 in Hk0.
      destruct (String.eqb k0 "self"); [discriminate | eauto].
    + intros k v Hk Hself Hex Hnone Hlist Hb. apply H3; try assumption.
      rewrite Hp1.
      assert (Hk0 : dict_get p0 k = Some v).
      { rewrite Hp0. apply String.eqb_neq in Hself. now rewrite Hself. }
      rewrite Hk0. rewrite (bool_decide_eq_false_2 (k ∈ exclude)) by assumption.
      assert (Hn : is_none v = false) by (destruct v; simpl; congruence).
      rewrite Hn. cbn [orb]. now rewrite andb_false_r.
Qed.

Lemma generate_params_normalises_witness :
  exists out,
    generate_params
      [("self", VNone); ("id", VInt 3); ("media_ids", VList [VInt 1; VInt 2]);
       ("spoiler_text", VNone); ("visibility", VStr "public")] ["id"] = Ok out
    /\ (forall k, dict_get out k <> Some VNone)
    /\ (forall k l, dict_get out k = Some (VList l) -> bracketed k)
    /\ (forall k v, dict_get out k = Some v ->
          exists k0,
            dict_get [("self", VNone); ("id", VInt 3);
                      ("media_ids", VList [VInt 1; VInt 2]);
                      ("spoiler_text", VNone); ("visibility", VStr "public")] k0
            = Some v)
    /\ (forall k v,
          dict_get [("self", VNone); ("id", VInt 3);
                    ("media_ids", VList [VInt 1; VInt 2]);
                    ("spoiler_text", VNone); ("visibility", VStr "public")] k
          = Some v ->
          k <> "self" -> k ∉ ["id"] -> v <> VNone ->
          (forall l, v <> VList l) -> ~ bracketed k ->
          dict_get out k = Some v).
Proof.
  apply (proj2 (generate_params_normalises
                  [("self", VNone); ("id", VInt 3);
                   ("media_ids", VList [VInt 1; VInt 2]);
                   ("spoiler_text", VNone); ("visibility", VStr "public")] ["id"]
                  ltac:(unfold dict_keys; simpl; repeat constructor;
                        rewrite ?elem_of_cons; intros H;
                        repeat (destruct H as [H | H]; [discriminate |]);
                        inversion H))).
  exists VNone. reflexivity.
Defined.

(** ** What the loop sends *)

Lemma requests_app l l' : requests (l ++ l') = (requests l ++ requests l')%list.
Proof. unfold requests. apply omap_app. Qed.

Lemma repeats_same_outside req n st st0 st1 :
  repeats req n st st0 -> same_outside st0 st1 -> repeats req n st st1.
Proof.
  unfold repeats, same_outside. intros (H1 & H2) (L & _ & _ & _ & Hb).
  rewrite L, Hb. auto.
Qed.

Lemma attempt_repeats dp phl m e params files hdrs b st :
  let req := Request m (api_base_url (self st) +:+ e) hdrs params files in
  let out := attempt dp phl (VStr m) (VStr e) params files hdrs b st in
  repeats req 1 st (snd out)
  /\ (fst out = Ok Again -> (length (server (snd out)) < length (server st))%nat).
Proof.
  intros req out. subst out.
  set (P := fun out : result turn * state =>
              repeats req 1 st (snd out)
              /\ (fst out = Ok Again ->
                  (length (server (snd out)) < length (server st))%nat)).
  change (P (attempt dp phl (VStr m) (VStr e) params files hdrs b st)).
  unfold attempt, mbind at 1 2, M_bind, get_self, try_catch, http_request.
  fold req.
  assert (Hsent : forall t srv, repeats req 1 st
            {| self := self st; now := t; server := srv;
               log := (log st ++ [req])%list |}).
  { intros. split; [| reflexivity]. simpl. rewrite requests_app. reflexivity. }
  assert (Hraise : forall t srv err, P
            (Raise err, {| self := self st; now := t; server := srv;
                           log := (log st ++ [req])%list |})).
  { intros. split; [apply Hsent | discriminate]. }
  destruct (server st) as [| x rest] eqn:Hsrv; [apply Hraise |].
  destruct (outcome x) as [why | r]; [apply Hraise |].
  unfold mbind at 1, M_bind.
  match goal with |- context [parse_ratelimit_headers dp r b ?s] =>
    set (st0 := s) end.
  assert (Hf := parse_ratelimit_headers_frames dp r b st0).
  assert (Hq : forall err st1, same_outside st0 st1 -> P (Raise err, st1)).
  { intros err st1 Hs. split; [| discriminate].
    exact (repeats_same_outside _ _ _ _ _ (Hsent _ _) Hs). }
  assert (Hd : forall v st1, same_outside st0 st1 -> P (Ok (Done v), st1)).
  { intros v st1 Hs. split; [| discriminate].
    exact (repeats_same_outside _ _ _ _ _ (Hsent _ _) Hs). }
  destruct (parse_ratelimit_headers dp r b st0) as [[[] | err] st1];
    simpl in Hf; [| now apply Hq].
  destruct (negb (ok r)).
  - unfold mbind at 1, M_bind, lift.
    destruct (error_message dp r) as [msg | err]; [| now apply Hq].
    unfold mbind at 1, M_bind, get_self.
    assert (Hapi : forall msg', P (@raise_api_error turn r msg' st1)).
    { intros msg'. unfold raise_api_error.
      destruct (status_code r =? 404)%Z; [| destruct (status_code r =? 401)%Z];
        now apply Hq. }
    destruct (status_code r =? 429)%Z; [| apply Hapi].
    destruct (_ || negb b); [now apply Hq |].
    destruct (_ || _); [| apply Hapi].
    unfold mbind at 1, M_bind, time.
    destruct (Qltb 0 _); [| apply Hapi].
    unfold mbind, M_bind, sleep.
    destruct (Qltb _ 0); [now apply Hq |].
    split.
    + destruct Hf as (L & _ & _ & _ & Hb). split; simpl.
      * rewrite requests_app, L. simpl. rewrite requests_app. simpl.
        now rewrite app_nil_r.
      * exact Hb.
    + intros _. simpl. destruct Hf as (_ & -> & _). simpl. lia.
  - unfold mbind at 1, M_bind, lift.
    destruct (response_json dp r) as [v | err].
    + unfold mbind, M_bind.
      destruct (parse_link_headers phl _ _ _ r v); [now apply Hd | now apply Hq].
    + destruct (issubclass _ _); now apply Hq.
Qed.

Lemma request_loop_repeats dp phl m e params files hdrs b n : forall st,
  (length (server st) <= n)%nat ->
  let req := Request m (api_base_url (self st) +:+ e) hdrs params files in
  exists k,
    (1 <= k)%nat /\ (k <= S n)%nat
    /\ repeats req k st
         (snd (request_loop dp phl n (VStr m) (VStr e) params files hdrs b st)).
Proof.
  induction n as [| n IH]; intros st Hn req.
  - destruct (attempt_repeats dp phl m e params files hdrs b st) as [Hr Hagain].
    fold req in Hr. simpl. unfold mbind, M_bind.
    destruct (attempt dp phl (VStr m) (VStr e) params files hdrs b st)
      as [[[| v] | err] st1]; simpl in *; exists 1%nat;
      (split; [lia | split; [lia | exact Hr]]).
  - destruct (attempt_repeats dp phl m e params files hdrs b st) as [Hr Hagain].
    fold req in Hr. simpl. unfold mbind at 1, M_bind.
    destruct (attempt dp phl (VStr m) (VStr e) params files hdrs b st)
      as [[[| v] | err] st1]; simpl in *;
      try (exists 1%nat; split; [lia | split; [lia | exact Hr]]).
    specialize (Hagain eq_refl).
    destruct (IH st1) as (k & Hk & Hk' & Hrep); [lia |].
    destruct Hr as (Hr1 & Hr2). rewrite Hr2 in Hrep. fold req in Hrep.
    destruct Hrep as (Hk1 & Hk2).
    exists (S k). split; [lia |]. split; [lia |]. split.
    + rewrite Hk1, Hr1, <- app_assoc. reflexivity.
    + congruence.
Qed.

Lemma silent_bind {A B} (m : M A) (k : A -> M B) :
  silent m -> (forall a, silent (k a)) -> silent (m ≫= k).
Proof.
  intros Hm Hk st. unfold mbind, M_bind.
  destruct (Hm st) as (H1 & H2 & H3).
  destruct (m st) as [[a | e] st']; simpl in *; [| auto].
  destruct (Hk a st') as (K1 & K2 & K3). rewrite K1, K2, K3. auto.
Qed.

Lemma silent_pure {A} (r : result A) : silent (fun st => (r, st)).
Proof. intros st. auto. Qed.

Lemma silent_sleep d : silent (sleep d).
Proof.
  intros st. unfold sleep. destruct (Qltb d 0); simpl; [auto |].
  rewrite requests_app. simpl. now rewrite app_nil_r.
Qed.

Lemma silent_pace b : silent (pace b).
Proof.
  unfold pace.
  repeat first
    [ apply silent_sleep
    | apply (silent_pure (Ok tt))
    | apply silent_bind; [| intros ?]
    | match goal with |- silent (if ?c then _ else _) => destruct c end
    | intros ?; repeat split ].
Qed.

Lemma pace_same_requests b st :
  requests (log (snd (pace b st))) = requests (log st)
  /\ self (snd (pace b st)) = self st
  /\ (length (server (snd (pace b st))) = length (server st))%nat.
Proof.
  destruct (silent_pace b st) as (H1 & H2 & H3). now rewrite H1, H2, H3.
Qed.

(** X19. All the requests of one call of the engine are the same request:
    same method, URL, headers, parameters and files; there are no more of
    them than scripted exchanges plus one, and at least one unless the
    pace block raises. *)
Theorem every_turn_sends_the_same_request dateutil_parse parse_header_links
    (m e : string) (params files : gmap string pyval) (do_ratelimiting : bool)
    (st : state) :
  let req := Request m (api_base_url (self st) +:+ e)
               (request_headers (self st)) params files in
  let out := api_request dateutil_parse parse_header_links (VStr m) (VStr e)
               params files do_ratelimiting st in
  exists k,
    requests (log (snd out)) = (requests (log st) ++ replicate k req)%list
    /\ (k <= S (length (server st)))%nat
    /\ (ratelimit_method (self st) <> "pace" -> (1 <= k)%nat).
Proof.
  intros req out. subst out. unfold api_request.
  destruct (pace_same_requests do_ratelimiting st) as (Hp1 & Hp2 & Hp3).
  assert (Hpace := pace_other_method do_ratelimiting st).
  unfold mbind at 1, M_bind.
  destruct (pace do_ratelimiting st) as [[[] | err] st0]; simpl in Hp1, Hp2, Hp3.
  2:{ exists 0%nat. simpl. rewrite Hp1, app_nil_r. split; [reflexivity |].
      split; [lia |]. intros H. apply Hpace in H. discriminate. }
  unfold mbind at 1 2, M_bind, get_self, exchanges_left.
  destruct (request_loop_repeats dateutil_parse parse_header_links m e params files
              (request_headers (self st0)) do_ratelimiting (length (server st0)) st0)
    as (k & Hk & Hk' & Hr1 & _); [lia |].
  exists k. rewrite Hr1, Hp1, Hp2. split; [reflexivity |]. split; [lia | auto].
Qed.

Lemma every_turn_sends_the_same_request_witness :
  exists k,
    requests (log (snd (api_request no_dates one_next_link (VStr "GET")
                          (VStr "/api/v1/timelines/home") ∅ ∅ true
                          (throttled_state "wait" 130 10))))
    = (requests (log (throttled_state "wait" 130 10))
       ++ replicate k
            (Request "GET"
               (api_base_url (self (throttled_state "wait" 130 10))
                +:+ "/api/v1/timelines/home")
               (request_headers (self (throttled_state "wait" 130 10))) ∅ ∅))%list
    /\ (k <= S (length (server (throttled_state "wait" 130 10))))%nat
    /\ (ratelimit_method (self (throttled_state "wait" 130 10)) <> "pace" ->
        (1 <= k)%nat).
Proof.
  apply (every_turn_sends_the_same_request no_dates one_next_link
           "GET" "/api/v1/timelines/home" ∅ ∅ true (throttled_state "wait" 130 10)).
Defined.

(** ** Decoding: what the caller gets *)

Lemma widen_lookup o k : json_strnum_to_bignum o !! k = widen k <$> o !! k.
Proof.
  rewrite json_strnum_to_bignum_fold. unfold widen. case_bool_decide as Hk.
  - destruct (o !! k) as [v |] eqn:E.
    + destruct v; try (apply strnum_fold_stable; [exact E | intros ? [=]]).
      now apply (strnum_fold_text json_strnum_keys o k s).
    + change (foldl strnum_to_bignum_key o json_strnum_keys !! k = None).
      destruct (foldl strnum_to_bignum_key o json_strnum_keys !! k) eqn:F;
        [| reflexivity].
      assert (H : is_Some (o !! k)) by (apply (strnum_fold_dom json_strnum_keys); eauto).
      rewrite E in H. destruct H; discriminate.
  - rewrite strnum_fold_other by assumption. now destruct (o !! k).
Qed.

Lemma json_hooks_three_transforms dp o : json_hooks dp o = three_transforms dp o.
Proof.
  unfold json_hooks, json_date_parse, three_transforms.
  assert (HF : map_Forall (fun k v => is_Some (date_parse_item dp k v))
                 (json_strnum_to_bignum o)
               <-> map_Forall (fun k v => is_Some (date_parse_item dp k (widen k v))) o).
  { unfold map_Forall. split.
    - intros H k v Hk. apply H. rewrite widen_lookup, Hk. reflexivity.
    - intros H k v Hk. rewrite widen_lookup in Hk.
      destruct (o !! k) as [v0 |] eqn:E; [| discriminate].
      injection Hk as <-. now apply H. }
  rewrite (bool_decide_ext _ _ HF).
  destruct (bool_decide _); [| reflexivity].
  simpl. do 2 f_equal. apply map_eq. intros k.
  rewrite !map_lookup_imap, widen_lookup. now destruct (o !! k).
Qed.

Lemma loads_ext h1 h2 :
  (forall o, h1 o = h2 o) -> forall j, loads h1 j = loads h2 j.
Proof.
  intros Hh j. induction j using json_induction; try reflexivity.
  - rewrite !loads_array. f_equal.
    induction H as [| x items Hx _ IH]; simpl; [reflexivity |].
    now rewrite Hx, IH.
  - rewrite !loads_object.
    assert (Hm : forall acc, loads_members h1 members acc = loads_members h2 members acc).
    { induction H as [| [k x] members Hx _ IH]; intros acc; simpl; [reflexivity |].
      simpl in Hx. rewrite Hx. destruct (loads h2 x); simpl; [apply IH | reflexivity]. }
    rewrite Hm. destruct (loads_members h2 members ∅); simpl; [apply Hh | reflexivity].
Qed.

Section hooked_payloads.
Variable dp : string -> option datetime.
Variable D : datetime -> Prop.
Hypothesis D_timestamp : forall z dt, fromtimestamp_utc z = Some dt -> D dt.
Hypothesis D_text : forall s dt, dp s = Some dt -> D dt.

Lemma date_parse_value_kind v v' :
  date_parse_value dp v = Some v' -> exists dt, v' = VDate dt /\ D dt.
Proof.
  destruct v; simpl; try discriminate.
  - destruct (fromtimestamp_utc _) eqn:E; simpl; [intros [= <-]; eauto | discriminate].
  - destruct (fromtimestamp_utc _) eqn:E; simpl; [intros [= <-]; eauto | discriminate].
  - destruct (dp s) eqn:E; simpl; [intros [= <-]; eauto | discriminate].
Qed.

Lemma json_hooks_hooked o v :
  (forall k x, o !! k = Some x -> hooked D x) ->
  json_hooks dp o = Ok v -> hooked D v.
Proof.
  intros Ho Hv. apply json_hooks_ok in Hv. subst v.
  constructor. intros k v Hk.
  rewrite map_lookup_imap in Hk.
  destruct (json_strnum_to_bignum o !! k) as [v0 |] eqn:E0; [| discriminate Hk].
  change (date_parse_item dp k v0 = Some v) in Hk.
  unfold date_parse_item in Hk. rewrite json_strnum_to_bignum_fold in E0.
  split; [| split].
  - intros Hin. rewrite bool_decide_eq_true_2 in Hk by assumption.
    eapply date_parse_value_kind, Hk.
  - intros Hnin. rewrite bool_decide_eq_false_2 in Hk by assumption.
    injection Hk as <-.
    exact (strnum_fold_keeps (hooked D) json_strnum_keys o k (hooked_int D) (Ho k) v0 E0).
  - intros Hin s ->. destruct (bool_decide (k ∈ known_date_fields)).
    + apply date_parse_value_date in Hk as [dt Hk]. discriminate Hk.
    + injection Hk as ->.
      exact (strnum_fold_done json_strnum_keys o k (VStr s) Hin E0 s eq_refl).
Qed.

Lemma loads_hooked j : forall v, loads (json_hooks dp) j = Ok v -> hooked D v.
Proof.
  induction j using json_induction; intros v.
  1-5: simpl; intros [= <-]; constructor.
  - rewrite loads_array.
    destruct (loads_list (json_hooks dp) items) as [l |] eqn:E; [| discriminate].
    simpl. intros [= <-]. constructor.
    revert l E. induction H as [| x items Hx _ IH]; intros l; simpl.
    + intros [= <-] v Hv. inversion Hv.
    + destruct (loads (json_hooks dp) x) as [vx |] eqn:Ex; [| discriminate]. simpl.
      destruct (loads_list (json_hooks dp) items) as [vs |] eqn:Es; [| discriminate].
      simpl. intros [= <-] v [-> | Hv]%elem_of_cons; [now apply Hx | now apply (IH vs)].
  - rewrite loads_object.
    destruct (loads_members (json_hooks dp) members ∅) as [d |] eqn:E; [| discriminate].
    simpl. apply json_hooks_hooked.
    assert (Hacc : forall k x, (∅ : gmap string pyval) !! k = Some x -> hooked D x)
      by (intros k x Hk; rewrite lookup_empty in Hk; discriminate).
    revert E Hacc. generalize (∅ : gmap string pyval) as acc. revert d.
    induction H as [| [k0 x] members Hx _ IH]; intros d acc; simpl.
    + intros [= <-]. auto.
    + destruct (loads (json_hooks dp) x) as [vx |] eqn:Ex; [| discriminate]. simpl.
      intros E Hacc. apply (IH d _ E). intros k y.
      destruct (decide (k = k0)) as [-> |].
      * rewrite lookup_insert_eq. intros [= <-]. now apply Hx.
      * rewrite lookup_insert_ne by congruence. apply Hacc.
Qed.
End hooked_payloads.

Lemma attempt_outcome dp phl method endpoint params files hdrs b st :
  let out := attempt dp phl method endpoint params files hdrs b st in
  (forall v, fst out = Ok (Done v) ->
     exists x rest, server st = x :: rest
                    /\ decoded_from dp phl method endpoint params x v)
  /\ (forall y, y ∈ server (snd out) -> y ∈ server st).
Proof.
  intros out. subst out.
  set (P := fun out : result turn * state =>
              (forall v, fst out = Ok (Done v) ->
                 exists x rest, server st = x :: rest
                                /\ decoded_from dp phl method endpoint params x v)
              /\ (forall y, y ∈ server (snd out) -> y ∈ server st)).
  change (P (attempt dp phl method endpoint params files hdrs b st)).
  assert (Hraise : forall err st1,
            (forall y, y ∈ server st1 -> y ∈ server st) -> P (Raise err, st1)).
  { intros err st1 Hs. split; [discriminate | exact Hs]. }
  unfold attempt. unfold mbind at 1 2, M_bind, get_self.
  set (transport := try_catch _ Exception _).
  assert (Ht : (exists err st1, transport st = (Raise err, st1)
                                /\ forall y, y ∈ server st1 -> y ∈ server st)
               \/ (exists x rest r st1,
                     transport st = (Ok r, st1) /\ server st = x :: rest
                     /\ outcome x = Answered r /\ server st1 = rest)).
  { subst transport. unfold try_catch.
    assert (Hno : forall c msg,
              issubclass c Exception = true ->
              exists err st1,
                (if issubclass c Exception
                 then throw MastodonNetworkError "Could not complete request" st
                 else (@raise response c msg, st)) = (Raise err, st1)
                /\ forall y, y ∈ server st1 -> y ∈ server st).
    { intros c msg ->. eexists _, _. split; [reflexivity | auto]. }
    destruct method; try (left; apply (Hno TypeError "must be str"); reflexivity).
    destruct endpoint; try (left; apply (Hno TypeError "must be str"); reflexivity).
    unfold http_request.
    destruct (server st) as [| x rest] eqn:Hsrv.
    - left. eexists _, _. split; [reflexivity |]. simpl. intros y Hy. inversion Hy.
    - destruct (outcome x) as [why | r] eqn:Hout.
      + left. eexists _, _. split; [reflexivity |]. simpl. intros y Hy. now right.
      + right. eexists x, rest, r, _. split; [reflexivity |]. auto. }
  destruct Ht as [(err & st1 & -> & Hs) | (x & rest & r & st0 & -> & Hsrv & Hout & Hrest)];
    [now apply Hraise |].
  assert (Hsub : forall st1, server st1 = server st0 ->
                             forall y, y ∈ server st1 -> y ∈ server st).
  { intros st1 ->. rewrite Hrest, Hsrv. intros y Hy. now right. }
  unfold mbind at 1, M_bind.
  assert (Hf := parse_ratelimit_headers_frames dp r b st0).
  destruct (parse_ratelimit_headers dp r b st0) as [[[] | err] st1];
    simpl in Hf; destruct Hf as (_ & Hs1 & _); [| now apply Hraise, Hsub].
  destruct (negb (ok r)) eqn:Hok.
  - unfold mbind at 1, M_bind, lift.
    destruct (error_message dp r) as [msg | err]; [| now apply Hraise, Hsub].
    unfold mbind at 1, M_bind, get_self.
    assert (Hapi : forall msg', P (@raise_api_error turn r msg' st1)).
    { intros msg'. unfold raise_api_error.
      destruct (status_code r =? 404)%Z; [| destruct (status_code r =? 401)%Z];
        now apply Hraise, Hsub. }
    destruct (status_code r =? 429)%Z; [| apply Hapi].
    destruct (_ || negb b); [now apply Hraise, Hsub |].
    destruct (_ || _); [| apply Hapi].
    unfold mbind at 1, M_bind, time.
    destruct (Qltb 0 _); [| apply Hapi].
    unfold mbind, M_bind, sleep.
    destruct (Qltb _ 0); [now apply Hraise, Hsub |].
    split; [discriminate |]. simpl. now apply Hsub.
  - apply negb_false_iff in Hok.
    unfold mbind at 1, M_bind, try_catch, lift.
    destruct (response_json dp r) as [v0 | err] eqn:Hjson.
    + unfold mbind, M_bind.
      destruct (parse_link_headers phl _ _ _ r v0) as [v | err] eqn:Hlink;
        [| now apply Hraise, Hsub].
      split; [| now apply Hsub]. simpl. intros v' [= <-].
      exists x, rest. split; [exact Hsrv |].
      unfold response_json in Hjson.
      destruct (body r) as [j |] eqn:Hbody; [| discriminate].
      exists r, j, v0. auto.
    + destruct (issubclass _ _); now apply Hraise, Hsub.
Qed.

Lemma request_loop_outcome dp phl method endpoint params files hdrs b n :
  forall st v,
    fst (request_loop dp phl n method endpoint params files hdrs b st) = Ok v ->
    exists x, x ∈ server st /\ decoded_from dp phl method endpoint params x v.
Proof.
  induction n as [| n IH]; intros st v;
    destruct (attempt_outcome dp phl method endpoint params files hdrs b st)
      as [Hdone Hsub];
    simpl; unfold mbind at 1, M_bind;
    destruct (attempt dp phl method endpoint params files hdrs b st)
      as [[[| v'] | err] st1]; simpl in *; try discriminate.
  - intros [= <-]. destruct (Hdone v' eq_refl) as (x & rest & Hsrv & Hx).
    exists x. split; [rewrite Hsrv; left | exact Hx].
  - intros H. destruct (IH st1 v H) as (x & Hin & Hx). exists x. auto.
  - intros [= <-]. destruct (Hdone v' eq_refl) as (x & rest & Hsrv & Hx).
    exists x. split; [rewrite Hsrv; left | exact Hx].
Qed.

Lemma api_request_outcome dp phl method endpoint params files b st v :
  fst (api_request dp phl method endpoint params files b st) = Ok v ->
  exists x, x ∈ server st /\ decoded_from dp phl method endpoint params x v.
Proof.
  unfold api_request. unfold mbind at 1, M_bind.
  destruct (silent_pace b st) as (_ & _ & Hsrv).
  destruct (pace b st) as [[[] | err] st1]; simpl in *; [| discriminate].
  unfold mbind at 1 2, M_bind, get_self, exchanges_left.
  intros H. apply request_loop_outcome in H. now rewrite Hsrv in H.
Qed.

Lemma api_request_decodes dp phl m e params files b st x rest r j v0 :
  b = false \/ (ratelimit_method (self st) <> "pace"
                /\ headers r !! "X-RateLimit-Remaining" = None) ->
  server st = x :: rest -> outcome x = Answered r -> ok r = true ->
  body r = Some j -> loads (json_hooks dp) j = Ok v0 ->
  fst (api_request dp phl (VStr m) (VStr e) params files b st)
  = parse_link_headers phl (VStr m) (VStr e) params r v0.
Proof.
  intros Hcase Hsrv Hout Hok Hbody Hloads.
  unfold api_request. unfold mbind at 1, M_bind.
  assert (Hpace : pace b st = (Ok tt, st)).
  { destruct Hcase as [-> | [Hm _]]; [reflexivity | now apply pace_other_method]. }
  rewrite Hpace. unfold mbind at 1 2, M_bind, get_self, exchanges_left.
  assert (Hhdr : forall st0, parse_ratelimit_headers dp r b st0 = (Ok tt, st0)).
  { intros st0. unfold parse_ratelimit_headers.
    destruct Hcase as [-> | [_ Hh]].
    - now rewrite andb_false_r.
    - rewrite bool_decide_eq_false_2 by (rewrite Hh; intros [? ?]; discriminate).
      reflexivity. }
  set (P := fun out : result pyval * state =>
              fst out = parse_link_headers phl (VStr m) (VStr e) params r v0).
  assert (Hturn : forall n,
            P (request_loop dp phl n (VStr m) (VStr e) params files
                 (request_headers (self st)) b st)).
  { intros n. unfold P.
    assert (Hatt : fst (attempt dp phl (VStr m) (VStr e) params files
                          (request_headers (self st)) b st)
                   = (v ← parse_link_headers phl (VStr m) (VStr e) params r v0;
                      Ok (Done v))).
    { unfold attempt, mbind at 1 2, M_bind, get_self, try_catch, http_request.
      rewrite Hsrv, Hout. unfold mbind at 1, M_bind. rewrite Hhdr.
      rewrite Hok. cbn [negb].
      unfold mbind at 1, M_bind, lift, response_json. rewrite Hbody, Hloads.
      unfold mbind, M_bind.
      destruct (parse_link_headers phl _ _ _ r v0); reflexivity. }
    destruct n; simpl; unfold mbind at 1, M_bind;
      destruct (attempt dp phl (VStr m) (VStr e) params files
                  (request_headers (self st)) b st) as [[[| v] | err] st1];
      simpl in Hatt;
      destruct (parse_link_headers phl (VStr m) (VStr e) params r v0);
      simpl in Hatt; try discriminate; simpl; congruence. }
  apply Hturn.
Qed.

(** C6 as stated fails: a known date field that holds a text without a
    zone becomes a naive datetime, not a timezone-aware instant. *)
Lemma text_date_without_zone_counterexample :
  loads (json_hooks dateutil_no_zone)
    (JObject [("created_at", JString "2017-04-01 12:00:00")])
  = Ok (VAttribAccessDict
          {[ "created_at" := VDate (Datetime (inject_Z 1491048000) None) ]} ∅)
  /\ utcoffset (Datetime (inject_Z 1491048000) None) = None.
Proof. split; [vm_compute |]; reflexivity. Qed.

(** C6, amended. On the members of one object the hook of the decoder is
    the three transforms of the specification, field by field and in its
    order: the text of an identifier field is widened to the integer that
    [int()] reads, a known date field is then parsed (so [week], widened
    first, is read as a timestamp), and the mapping is wrapped. The decoder
    applies it once to every object, innermost first. A date read from an
    integer is in UTC; a date read from a text is the datetime that
    [dateutil.parser.parse] returns, so that the dates of a payload are
    timezone-aware when the library returns no naive one. A payload that
    the request engine returns is the decoding of the body of an answer of
    the server that is [ok], with the pagination cursors attached; and the
    engine does return it when that answer comes first and the rate limiter
    has nothing to do. *)
Theorem json_hooks_three_passes_in_order dateutil_parse :
  (forall o, json_hooks dateutil_parse o = three_transforms dateutil_parse o)
  /\ (forall j, loads (json_hooks dateutil_parse) j
                = loads (three_transforms dateutil_parse) j)
  /\ loads (json_hooks dateutil_parse)
       (JObject [("id", JString "123456789012345678")])
     = Ok (VAttribAccessDict {[ "id" := VInt 123456789012345678 ]} ∅)
  /\ loads (json_hooks dateutil_parse) (JObject [("week", JString "86400")])
     = Ok (VAttribAccessDict
             {[ "week" := VDate (Datetime (inject_Z 86400) (Some 0%Q)) ]} ∅)
  /\ (forall j v,
        loads (json_hooks dateutil_parse) j = Ok v ->
        hooked (fun dt => utcoffset dt = Some 0%Q
                          \/ exists s, dateutil_parse s = Some dt) v)
  /\ ((forall s dt, dateutil_parse s = Some dt -> aware dt) ->
      forall j v, loads (json_hooks dateutil_parse) j = Ok v -> hooked aware v)
  /\ (forall parse_header_links method endpoint params files do_ratelimiting st v,
        fst (api_request dateutil_parse parse_header_links method endpoint
               params files do_ratelimiting st) = Ok v ->
        exists x r j v0,
          x ∈ server st /\ outcome x = Answered r /\ ok r = true
          /\ body r = Some j
          /\ loads (json_hooks dateutil_parse) j = Ok v0
          /\ parse_link_headers parse_header_links method endpoint params r v0
             = Ok v)
  /\ (forall parse_header_links m e params files do_ratelimiting st x rest r j v0,
        do_ratelimiting = false
        \/ (ratelimit_method (self st) <> "pace"
            /\ headers r !! "X-RateLimit-Remaining" = None) ->
        server st = x :: rest -> outcome x = Answered r -> ok r = true ->
        body r = Some j -> loads (json_hooks dateutil_parse) j = Ok v0 ->
        fst (api_request dateutil_parse parse_header_links (VStr m) (VStr e)
               params files do_ratelimiting st)
        = parse_link_headers parse_header_links (VStr m) (VStr e) params r v0).
Proof.
  split; [apply json_hooks_three_transforms |].
  split; [apply loads_ext, json_hooks_three_transforms |].
  split; [vm_compute; reflexivity |]. split; [vm_compute; reflexivity |].
  split; [| split; [| split]].
  - intros j. apply loads_hooked.
    + intros z dt. unfold fromtimestamp_utc.
      destruct (_ && _); [intros [= <-]; now left | discriminate].
    + intros s dt H. right. eauto.
  - intros Hlib j. apply loads_hooked.
    + intros z dt. unfold fromtimestamp_utc.
      destruct (_ && _); [intros [= <-]; now eexists | discriminate].
    + exact Hlib.
  - intros phl method endpoint params files b st v H.
    apply api_request_outcome in H as (x & Hin & r & j & v0 & H).
    exists x, r, j, v0. tauto.
  - intros. eapply api_request_decodes; eassumption.
Qed.

Lemma json_hooks_three_passes_in_order_witness :
  fst (api_request no_dates one_next_link (VStr "GET")
         (VStr "/api/v1/timelines/home") ∅ ∅ true page_state)
  = parse_link_headers one_next_link (VStr "GET") (VStr "/api/v1/timelines/home") ∅
      {| status_code := 200; reason := "";
         headers := {[ "Link" := "https://mastodon.example/api/v1/timelines/home?max_id=7" ]};
         body := Some (JArray [JObject [("id", JString "9")];
                               JObject [("id", JString "8")]]) |}
      (VList [VAttribAccessDict {[ "id" := VInt 9 ]} ∅;
              VAttribAccessDict {[ "id" := VInt 8 ]} ∅]).
Proof.
  apply (proj2 (proj2 (proj2 (proj2 (proj2 (proj2 (proj2
           (json_hooks_three_passes_in_order no_dates)))))))
           one_next_link "GET" "/api/v1/timelines/home" ∅ ∅ true page_state
           (answer 200
              {[ "Link" := "https://mastodon.example/api/v1/timelines/home?max_id=7" ]}
              (Some (JArray [JObject [("id", JString "9")];
                             JObject [("id", JString "8")]])))
           []
           {| status_code := 200; reason := "";
              headers := {[ "Link" := "https://mastodon.example/api/v1/timelines/home?max_id=7" ]};
              body := Some (JArray [JObject [("id", JString "9")];
                                    JObject [("id", JString "8")]]) |}
           (JArray [JObject [("id", JString "9")]; JObject [("id", JString "8")]])).
  - right. split; [vm_compute; discriminate | vm_compute; reflexivity].
  - reflexivity.
  - reflexivity.
  - reflexivity.
  - reflexivity.
  - vm_compute. reflexivity.
Defined.
